(** * badminton.py: a shallow embedding and its verified properties

    The script keeps one small record on disk (the pending poll), talks to
    the Telegram Bot API through four calls, and branches on today's date.
    The embedding below follows the Python source function by function:

    - [datetime]: the part of Python's [datetime.date] the script uses
      (proleptic Gregorian ordinals, [weekday()], [date + timedelta],
      [str(date)]);
    - a reader/state/exception monad [M] for the effects of the script
      (file system, clock, Telegram calls, logging, standard output,
      Python exceptions);
    - [store], [load], [get_next_date], [PersistentData], [BadmintonBot]
      and the [__main__] block;
    - the theorems, one group per property of the specification. *)

From Stdlib Require Import ZArith Lia.
From stdpp Require Import base option list strings gmap fin_maps pretty.

Open Scope Z_scope.

(* ===================================================================== *)
(** ** Python's [datetime.date], as far as the script uses it            *)
(* ===================================================================== *)

Module datetime.

(** A [datetime.date] is determined by its proleptic Gregorian ordinal
    ([date.toordinal()], 0001-01-01 is day 1); [date.min] and [date.max]
    bound the ordinals a date object can hold. *)
Record date := fromordinal { toordinal : Z }.

Definition MINORDINAL : Z := 1.
Definition MAXORDINAL : Z := 3652059.   (* date(9999, 12, 31).toordinal() *)

Definition valid (d : date) : Prop :=
  MINORDINAL <= toordinal d <= MAXORDINAL.

#[global] Instance date_eq_dec : EqDecision date.
Proof. solve_decision. Defined.

(** [date.weekday()]: Monday is 0 and Sunday is 6. *)
Definition weekday (d : date) : Z := (toordinal d + 6) mod 7.

(** [date + timedelta(days=n)]: raises [OverflowError] (here [None]) when
    the result leaves [date.min .. date.max]. *)
Definition add_days (d : date) (n : Z) : option date :=
  let o := toordinal d + n in
  if bool_decide (MINORDINAL <= o <= MAXORDINAL) then Some (fromordinal o)
  else None.

(** Calendar conversions ([_ymd2ord] and [_ord2ymd] of the library), used
    for [str(date)] and to write concrete dates in examples. *)
Definition is_leap (year : Z) : bool :=
  (year mod 4 =? 0) && (negb (year mod 100 =? 0) || (year mod 400 =? 0)).

Definition days_before_year (year : Z) : Z :=
  let y := year - 1 in y * 365 + y / 4 - y / 100 + y / 400.

Definition DAYS_IN_MONTH : list Z :=
  [-1; 31; 28; 31; 30; 31; 30; 31; 31; 30; 31; 30; 31].
Definition DAYS_BEFORE_MONTH : list Z :=
  [-1; 0; 31; 59; 90; 120; 151; 181; 212; 243; 273; 304; 334].

Definition table (t : list Z) (month : Z) : Z :=
  default 0 (t !! Z.to_nat month).

Definition days_before_month (year month : Z) : Z :=
  table DAYS_BEFORE_MONTH month
  + (if (2 <? month) && is_leap year then 1 else 0).

Definition ymd2ord (year month day : Z) : Z :=
  days_before_year year + days_before_month year month + day.

(** [datetime.date(year, month, day)] for a valid calendar date. *)
Definition ymd (year month day : Z) : date :=
  fromordinal (ymd2ord year month day).

Definition DI400Y : Z := 146097.
Definition DI100Y : Z := 36524.
Definition DI4Y : Z := 1461.

Definition ord2ymd (n : Z) : Z * Z * Z :=
  let n := n - 1 in
  let n400 := n / DI400Y in let n := n mod DI400Y in
  let year := n400 * 400 + 1 in
  let n100 := n / DI100Y in let n := n mod DI100Y in
  let n4 := n / DI4Y in let n := n mod DI4Y in
  let n1 := n / 365 in let n := n mod 365 in
  let year := year + n100 * 100 + n4 * 4 + n1 in
  if (n1 =? 4) || (n100 =? 4) then (year - 1, 12, 31)
  else
    let leapyear := (n1 =? 3) && (negb (n4 =? 24) || (n100 =? 3)) in
    let month := Z.shiftr (n + 50) 5 in
    let preceding :=
      table DAYS_BEFORE_MONTH month
      + (if (2 <? month) && leapyear then 1 else 0) in
    if n <? preceding then
      let month := month - 1 in
      let preceding :=
        preceding
        - (table DAYS_IN_MONTH month
           + (if (month =? 2) && leapyear then 1 else 0)) in
      (year, month, n - preceding + 1)
    else (year, month, n - preceding + 1).

(** Zero-padded decimal of a non-negative number, at least [width]
    digits (the ["%04d"] and ["%02d"] of [date.isoformat]). *)
Definition zfill (width : nat) (n : Z) : string :=
  let s := pretty n in
  String.concat "" (replicate (width - String.length s)%nat "0"%string) +:+ s.

(** [str(d)], that is [d.isoformat()]: YYYY-MM-DD. *)
Definition isoformat (d : date) : string :=
  let '(y, m, dd) := ord2ymd (toordinal d) in
  zfill 4 y +:+ "-" +:+ zfill 2 m +:+ "-" +:+ zfill 2 dd.

End datetime.

Import datetime.

(* ===================================================================== *)
(** ** Python values, exceptions and the Telegram client                 *)
(* ===================================================================== *)

(** The exceptions the script can meet. [SocketTimeout] is
    [socket.timeout], the only one the script catches around Telegram
    calls; [TelegramError] stands for every other failure of the client. *)
Inductive exn :=
  | SocketTimeout
  | TelegramError
  | FileNotFoundError
  | UnpicklingError
  | OverflowError
  | IndexError
  | AttributeError
  | NameError
  | SystemExit (code : Z).

#[global] Instance exn_eq_dec : EqDecision exn.
Proof. solve_decision. Defined.

Inductive result (A : Type) :=
  | Ok (a : A)
  | Raise (e : exn).
Arguments Ok {A} a.
Arguments Raise {A} e.

(** class PersistentData *)
Record PersistentData := {
  poll_message_id : option Z;
  poll_id : option string;
  polling_date : option date;
}.

(** [PersistentData.__init__(poll_message_id=None, poll_id=None, polling_date=None)] *)
Definition PersistentData_init
    (poll_message_id : option Z) (poll_id : option string)
    (polling_date : option date) : PersistentData :=
  {| poll_message_id := poll_message_id; poll_id := poll_id;
     polling_date := polling_date |}.

(** [PersistentData()] *)
Definition PersistentData_empty : PersistentData :=
  PersistentData_init None None None.

Definition get_poll_message_id (d : PersistentData) : option Z := poll_message_id d.
Definition get_poll_id (d : PersistentData) : option string := poll_id d.
Definition get_polling_date (d : PersistentData) : option date := polling_date d.

Definition set_poll_message_id (v : option Z) (d : PersistentData) : PersistentData :=
  {| poll_message_id := v; poll_id := poll_id d; polling_date := polling_date d |}.
Definition set_poll_id (v : option string) (d : PersistentData) : PersistentData :=
  {| poll_message_id := poll_message_id d; poll_id := v; polling_date := polling_date d |}.
Definition set_polling_date (v : option date) (d : PersistentData) : PersistentData :=
  {| poll_message_id := poll_message_id d; poll_id := poll_id d; polling_date := v |}.

(** The Python values that are pickled or passed around untyped. *)
Inductive value :=
  | VNone
  | VInt (n : Z)
  | VDict (items : list (string * Z))
  | VData (d : PersistentData).

(** [isinstance(v, dict)] *)
Definition is_dict (v : value) : bool :=
  match v with VDict _ => true | _ => false end.

(** What a file holds: the pickle of a value, or bytes [pickle.load]
    rejects. *)
Inductive file :=
  | Pickle (v : value)
  | Garbage.

Module telegram.
Record User := { first_name : string; last_name : option string }.
Record PollAnswer := { poll_id : string; user : User; option_ids : list Z }.
Record Update := { update_id : Z; poll_answer : option PollAnswer }.
Record Poll := { id : string }.
Record Message := { message_id : Z; poll : Poll }.

(** The calls made on a [telegram.Bot], as they leave the script: the
    bot is identified by its token. *)
Inductive call :=
  | SendMessage (token chat_id text : string)
  | SendPoll (token chat_id question : string) (options : list string)
             (is_anonymous : bool)
  | StopPoll (token chat_id : string) (message_id : option Z)
  | GetUpdates (token : string) (offset : option value).

(** How the service answers: a value, or an exception raised in the
    client. *)
Record Service := {
  send_message : string -> string -> string -> result unit;
  send_poll : string -> string -> string -> list string -> bool -> result Message;
  stop_poll : string -> string -> option Z -> result unit;
  get_updates : string -> option value -> result (list Update);
}.
End telegram.

(** [logging.info(fmt, *args)]: the record handed to the logger. *)
Inductive log_arg :=
  | ArgStr (s : string)
  | ArgValue (v : value)
  | ArgExn (e : exn).

(** class BadmintonBot: [self.bot] is the [telegram.Bot] built from the
    token; [self.data] is whatever [load] returned. *)
Record BadmintonBot := {
  bot : string;
  group_id : string;
  data : value;
}.

(* ===================================================================== *)
(** ** The effects of the script                                         *)
(* ===================================================================== *)

(** What an invocation reads but cannot change. *)
Record Env := {
  today : date;                       (* datetime.date.today() *)
  service : telegram.Service;
  BOT_TOKEN : option string;          (* os.environ.get('BOT_TOKEN') *)
  GROUP_ID : option string;           (* os.environ.get('GROUP_ID') *)
}.

(** What an invocation changes. [heap] holds the [BadmintonBot] objects,
    [global_bot] the module-level name [bot]. *)
Record World := {
  files : gmap string file;
  heap : gmap nat BadmintonBot;
  global_bot : option nat;
  calls : list telegram.call;
  log : list (string * list log_arg);
  stdout : list string;
}.

Definition M (A : Type) : Type := Env -> World -> World * result A.

#[global] Instance M_ret : MRet M := fun A a _ w => (w, Ok a).
#[global] Instance M_bind : MBind M := fun A B f m env w =>
  match m env w with
  | (w', Ok a) => f a env w'
  | (w', Raise e) => (w', Raise e)
  end.

Definition raise {A} (e : exn) : M A := fun _ w => (w, Raise e).
Definition ask : M Env := fun env w => (w, Ok env).
Definition get : M World := fun _ w => (w, Ok w).
Definition modify (f : World -> World) : M unit := fun _ w => (f w, Ok tt).

(** [try: body / except e0: handler] *)
Definition try_except {A} (body : M A) (e0 : exn) (handler : M A) : M A :=
  fun env w =>
    match body env w with
    | (w', Raise e) => if bool_decide (e = e0) then handler env w' else (w', Raise e)
    | r => r
    end.

Definition lift {A} (r : result A) : M A := fun _ w => (w, r).

Definition set_files f (w : World) : World :=
  {| files := f; heap := heap w; global_bot := global_bot w;
     calls := calls w; log := log w; stdout := stdout w |}.
Definition set_heap h (w : World) : World :=
  {| files := files w; heap := h; global_bot := global_bot w;
     calls := calls w; log := log w; stdout := stdout w |}.
Definition set_global_bot g (w : World) : World :=
  {| files := files w; heap := heap w; global_bot := g;
     calls := calls w; log := log w; stdout := stdout w |}.
Definition set_calls c (w : World) : World :=
  {| files := files w; heap := heap w; global_bot := global_bot w;
     calls := c; log := log w; stdout := stdout w |}.
Definition set_log l (w : World) : World :=
  {| files := files w; heap := heap w; global_bot := global_bot w;
     calls := calls w; log := l; stdout := stdout w |}.
Definition set_stdout s (w : World) : World :=
  {| files := files w; heap := heap w; global_bot := global_bot w;
     calls := calls w; log := log w; stdout := s |}.

(** [logging.info(fmt, *args)] at level INFO; a record is kept and no
    exception leaves the logger. [logging.debug] is below the configured
    level and leaves no record. *)
Definition logging_info (fmt : string) (args : list log_arg) : M unit :=
  modify (fun w => set_log (log w ++ [(fmt, args)]) w).
Definition logging_debug (fmt : string) (args : list log_arg) : M unit :=
  mret tt.

(** [print(line)] *)
Definition print (line : string) : M unit :=
  modify (fun w => set_stdout (stdout w ++ [line]) w).

(** [datetime.date.today()] *)
Definition date_today : M date := env ← ask; mret (today env).

(** [date + datetime.timedelta(days=n)] *)
Definition date_add (d : date) (n : Z) : M date :=
  match add_days d n with
  | Some r => mret r
  | None => raise OverflowError
  end.

(** [l[i]] on a Python list: negative indices count from the end. *)
Definition py_index {A} (l : list A) (i : Z) : option A :=
  let n := Z.of_nat (length l) in
  if bool_decide (0 <= i < n) then l !! Z.to_nat i
  else if bool_decide (- n <= i < 0) then l !! Z.to_nat (n + i)
  else None.

Definition index {A} (l : list A) (i : Z) : M A :=
  match py_index l i with
  | Some x => mret x
  | None => raise IndexError
  end.

(** [for x in l: body(x)] *)
Fixpoint for_each {A} (l : list A) (body : A -> M unit) : M unit :=
  match l with
  | [] => mret tt
  | x :: l' => body x;; for_each l' body
  end.

(** A call on a [telegram.Bot]: it is recorded, then the service answers. *)
Definition bot_send_message (token chat_id text : string) : M unit :=
  modify (fun w => set_calls (calls w ++ [telegram.SendMessage token chat_id text]) w);;
  env ← ask; lift (telegram.send_message (service env) token chat_id text).
Definition bot_send_poll (token chat_id question : string)
    (options : list string) (is_anonymous : bool) : M telegram.Message :=
  modify (fun w => set_calls
    (calls w ++ [telegram.SendPoll token chat_id question options is_anonymous]) w);;
  env ← ask;
  lift (telegram.send_poll (service env) token chat_id question options is_anonymous).
Definition bot_stop_poll (token chat_id : string) (message_id : option Z) : M unit :=
  modify (fun w => set_calls (calls w ++ [telegram.StopPoll token chat_id message_id]) w);;
  env ← ask; lift (telegram.stop_poll (service env) token chat_id message_id).
Definition bot_get_updates (token : string) (offset : option value)
    : M (list telegram.Update) :=
  modify (fun w => set_calls (calls w ++ [telegram.GetUpdates token offset]) w);;
  env ← ask; lift (telegram.get_updates (service env) token offset).

(** Objects: reading [self], and assigning [self.data]. *)
Definition deref (self : nat) : M BadmintonBot :=
  w ← get;
  match heap w !! self with
  | Some b => mret b
  | None => raise AttributeError
  end.

Definition assign_data (self : nat) (v : value) : M unit :=
  b ← deref self;
  modify (fun w => set_heap
    (<[self := {| bot := bot b; group_id := group_id b; data := v |}]> (heap w)) w).

(** [self.data.m()] for a getter [m] of [PersistentData]; a value of
    another class has no such method. *)
Definition data_get {A} (self : nat) (getter : PersistentData -> A) : M A :=
  b ← deref self;
  match data b with
  | VData d => mret (getter d)
  | _ => raise AttributeError
  end.

(** [self.data.m(v)] for a setter [m]: the object [self.data] is updated
    in place. *)
Definition data_set (self : nat) (setter : PersistentData -> PersistentData) : M unit :=
  b ← deref self;
  match data b with
  | VData d => assign_data self (VData (setter d))
  | _ => raise AttributeError
  end.

(** A new object. *)
Definition alloc (b : BadmintonBot) : M nat :=
  w ← get;
  let l := fresh (dom (heap w)) in
  modify (set_heap (<[l := b]> (heap w)));;
  mret l.

(* ===================================================================== *)
(** ** The script                                                        *)
(* ===================================================================== *)

Definition MONDAY : Z := 7.  (* Offset for calculation of next monday's date via timedelta *)
Definition FRIDAY : Z := 4.  (* Offset for calculation of next friday's date via timedelta *)

(** [store(data, filename)]; the default file name is badminton.pickle. *)
Definition store (data : value) (filename : string) : M unit :=
  logging_info "Storing data in %s" [ArgStr filename];;
  modify (fun w => set_files (<[filename := Pickle data]> (files w)) w).

(** [open(filename, 'rb')] followed by [pickle.load(handle)]. *)
Definition open_and_unpickle (filename : string) : M value :=
  w ← get;
  match files w !! filename with
  | None => raise FileNotFoundError
  | Some Garbage => raise UnpicklingError
  | Some (Pickle v) => mret v
  end.

(** [load(filename)] *)
Definition load (filename : string) : M value :=
  logging_info "Loading data from %s" [ArgStr filename];;
  try_except
    (open_and_unpickle filename)
    FileNotFoundError
    (logging_debug "Could not find %s" [ArgStr filename];;
     mret (VDict [])).

(** [get_next_date(weekday, date=None)] *)
Definition get_next_date (weekday : Z) (date : option datetime.date)
    : M datetime.date :=
  date ← match date with
         | None => date_today
         | Some d => mret d
         end;
  next_date ← date_add date (weekday - datetime.weekday date);
  mret next_date.

(** [BadmintonBot.__init__(self, token, group_id)]; the result is the new
    object. *)
Definition BadmintonBot_init (token group_id : string) : M nat :=
  data ← load "poll.data";
  self ← alloc {| bot := token; group_id := group_id; data := data |};
  (if is_dict data then
     assign_data self (VData PersistentData_empty);;
     store (VData PersistentData_empty) "poll.data"
   else mret tt);;
  mret self.

(** [BadmintonBot.send_message(self, message)] *)
Definition send_message (self : nat) (message : string) : M unit :=
  b ← deref self;
  try_except
    (bot_send_message (bot b) (group_id b) message)
    SocketTimeout
    (logging_info "Caught exception %s" [ArgExn SocketTimeout]).

Definition default_options : list string := ["Ja"; "Nein"]%string.

(** [BadmintonBot.send_poll(self, question, options=None)] *)
Definition send_poll (self : nat) (question : string)
    (options : option (list string)) : M (option Z * option string) :=
  b ← deref self;
  let options := default default_options options in
  try_except
    (message ← bot_send_poll (bot b) (group_id b) question options false;
     mret (Some (telegram.message_id message),
           Some (telegram.id (telegram.poll message))))
    SocketTimeout
    (logging_info "Caught exception %s" [ArgExn SocketTimeout];;
     mret (None, None)).

(** [BadmintonBot.get_updates(self, update_id=None)] *)
Definition get_updates (self : nat) (update_id : value)
    : M (list telegram.Update) :=
  b ← deref self;
  try_except
    (match update_id with
     | VNone =>
         logging_info "No update ID found, retrieving all updates" [];;
         bot_get_updates (bot b) None
     | _ =>
         logging_info "Last update ID %d" [ArgValue update_id];;
         bot_get_updates (bot b) (Some update_id)
     end)
    SocketTimeout
    (logging_info "Caught exception %s" [ArgExn SocketTimeout];;
     mret []).

(** ["User {} {} voted {}".format(first_name, last_name, option)]; an
    absent last name is Python's [None]. *)
Definition vote_line (u : telegram.User) (chosen : string) : string :=
  "User " +:+ telegram.first_name u +:+ " "
  +:+ default "None"%string (telegram.last_name u) +:+ " voted " +:+ chosen.

(** The body of the loop of [evaluate_poll]. *)
Definition evaluate_update (poll_id : option string) (options : list string)
    (update : telegram.Update) : M unit :=
  match telegram.poll_answer update with
  | Some poll_answer =>
      if bool_decide (poll_id = Some (telegram.poll_id poll_answer)) then
        i ← index (telegram.option_ids poll_answer) 0;
        chosen ← index options i;
        print (vote_line (telegram.user poll_answer) chosen)
      else mret tt
  | None => mret tt
  end.

(** [BadmintonBot.evaluate_poll(self, message_id, poll_id, options=None)] *)
Definition evaluate_poll (self : nat) (message_id : option Z)
    (poll_id : option string) (options : option (list string)) : M unit :=
  b ← deref self;
  bot_stop_poll (bot b) (group_id b) message_id;;
  updates ← get_updates self (VInt (-100));
  let options := default default_options options in
  for_each updates (evaluate_update poll_id options).

(** [BadmintonBot.get_latest_updates(self)] *)
Definition get_latest_updates (self : nat) : M unit :=
  update_id ← load "update.id";
  updates ← get_updates self update_id;
  last ← index updates (-1);
  store (VInt (telegram.update_id last)) "update.id".

(** The module-level name [bot]. *)
Definition read_global_bot : M nat :=
  w ← get;
  match global_bot w with
  | Some l => mret l
  | None => raise NameError
  end.

(** [BadmintonBot.manage_badminton_poll(self)] *)
Definition manage_badminton_poll (self : nat) : M unit :=
  date ← data_get self get_polling_date;
  match date with
  | None =>
      (* There is no pending poll, create a new one. *)
      next_monday ← get_next_date MONDAY None;
      logging_info "Create new poll for %s" [ArgStr (isoformat next_monday)];;
      the_bot ← read_global_bot;
      '(message_id, the_poll_id) ←
        send_poll the_bot ("Abfrage " +:+ isoformat next_monday) None;
      data_set self (set_poll_message_id message_id);;
      data_set self (set_poll_id the_poll_id);;
      data_set self (set_polling_date (Some next_monday))
  | Some _ =>
      today ← date_today;
      date ← data_get self get_polling_date;
      trigger ← get_next_date FRIDAY date;
      if bool_decide (today = trigger) then
        (* Poll was already created, we can evaluate it now, as we are at
           the friday before the event. *)
        date ← data_get self get_polling_date;
        logging_info "Evaluate poll from %s"
          [ArgStr (from_option isoformat "None"%string date)];;
        message_id ← data_get self get_poll_message_id;
        the_poll_id ← data_get self get_poll_id;
        evaluate_poll self message_id the_poll_id None;;
        (* Reset data *)
        assign_data self (VData PersistentData_empty)
      else
        (* A poll has already been created, but we still have time to
           gather all responses *)
        logging_info "Nothing to evaluate yet..." []
  end;;
  b ← deref self;
  store (data b) "poll.data".

(** The [__main__] block. *)
Definition main : M unit :=
  env ← ask;
  match BOT_TOKEN env, GROUP_ID env with
  | Some token, Some group =>
      b ← BadmintonBot_init token group;
      modify (set_global_bot (Some b));;
      manage_badminton_poll b
  | _, _ =>
      print "Environment variables 'BOT_TOKEN' and 'GROUP_ID' must be set";;
      raise (SystemExit (-1))
  end.

(** One scheduled run of the script: a new process (no objects, the name
    [bot] unbound) started on the files left by the runs before. *)
Definition fresh_process (fs : gmap string file) : World :=
  {| files := fs; heap := ∅; global_bot := None;
     calls := []; log := []; stdout := [] |}.

Definition run_script (env : Env) (fs : gmap string file) : World * result unit :=
  main env (fresh_process fs).

(* ===================================================================== *)
(** ** Sample surroundings for closed statements                         *)
(* ===================================================================== *)

Definition sample_message : telegram.Message :=
  {| telegram.message_id := 42; telegram.poll := {| telegram.id := "poll-1" |} |}.

Definition vote (uid : Z) (poll first : string) (ids : list Z) : telegram.Update :=
  {| telegram.update_id := uid;
     telegram.poll_answer := Some
       {| telegram.poll_id := poll;
          telegram.user := {| telegram.first_name := first; telegram.last_name := None |};
          telegram.option_ids := ids |} |}.

(** A service on which every call succeeds. *)
Definition sample_service (updates : list telegram.Update) : telegram.Service :=
  {| telegram.send_message := fun _ _ _ => Ok tt;
     telegram.send_poll := fun _ _ _ _ _ => Ok sample_message;
     telegram.stop_poll := fun _ _ _ => Ok tt;
     telegram.get_updates := fun _ _ => Ok updates |}.

(** The same service with [send_poll] timing out. *)
Definition timeout_service : telegram.Service :=
  {| telegram.send_message := fun _ _ _ => Ok tt;
     telegram.send_poll := fun _ _ _ _ _ => Raise SocketTimeout;
     telegram.stop_poll := fun _ _ _ => Ok tt;
     telegram.get_updates := fun _ _ => Raise SocketTimeout |}.

(** The same service with [stop_poll] failing. *)
Definition stop_failing_service (e : exn) : telegram.Service :=
  {| telegram.send_message := fun _ _ _ => Ok tt;
     telegram.send_poll := fun _ _ _ _ _ => Ok sample_message;
     telegram.stop_poll := fun _ _ _ => Raise e;
     telegram.get_updates := fun _ _ => Ok [] |}.

Definition sample_env (svc : telegram.Service) (d : date) : Env :=
  {| today := d; service := svc;
     BOT_TOKEN := Some "token"%string; GROUP_ID := Some "group"%string |}.

(** A poll pending for Monday 2024-01-08. *)
Definition pending_data : PersistentData :=
  PersistentData_init (Some 42) (Some "poll-1"%string) (Some (ymd 2024 1 8)).

Definition pending_files : gmap string file :=
  {[ "poll.data"%string := Pickle (VData pending_data) ]}.

Definition sample_bot (v : value) : BadmintonBot :=
  {| bot := "token"; group_id := "group"; data := v |}.

(** A process holding one bot object, bound to the name [bot]. *)
Definition sample_world (fs : gmap string file) (v : value) : World :=
  {| files := fs; heap := {[ 0%nat := sample_bot v ]}; global_bot := Some 0%nat;
     calls := []; log := []; stdout := [] |}.

(* ===================================================================== *)
(** ** The vocabulary of the statements                                  *)
(* ===================================================================== *)

(** The object [b] after [self.data = v]. *)
Definition with_data (b : BadmintonBot) (v : value) : BadmintonBot :=
  {| bot := bot b; group_id := group_id b; data := v |}.

(** The property the specification asks of the date utility, word for
    word: [r] falls on weekday [w], is not before [d], is less than seven
    days after [d], and is [d] itself when [d] falls on [w]. *)
Definition next_occurrence_spec (w : Z) (d r : date) : Prop :=
  weekday r = w
  /\ toordinal d <= toordinal r
  /\ toordinal r - toordinal d < 7
  /\ (weekday d = w -> r = d).

(** The world after one more log record, and after one more call. *)
Definition logged (fmt : string) (args : list log_arg) (w : World) : World :=
  set_log (log w ++ [(fmt, args)]) w.

Definition called (c : telegram.call) (w : World) : World :=
  set_calls (calls w ++ [c]) w.

(** The offset [get_updates] passes on: none when [update_id] is [None]. *)
Definition offset_of (update_id : value) : option value :=
  match update_id with VNone => None | v => Some v end.

(** The record [get_updates] logs before the call. *)
Definition fetch_note (update_id : value) : string * list log_arg :=
  match update_id with
  | VNone => ("No update ID found, retrieving all updates"%string, [])
  | v => ("Last update ID %d"%string, [ArgValue v])
  end.

(** The fetch, as [get_updates] sees it, came back empty: the service
    returned no update, or the call timed out. *)
Definition fetch_empty (env : Env) (token : string) (update_id : value) : Prop :=
  telegram.get_updates (service env) token (offset_of update_id) = Ok []
  \/ telegram.get_updates (service env) token (offset_of update_id) = Raise SocketTimeout.

(** The cursor [get_latest_updates] reads: the pickled value, or the empty
    map when there is no file. *)
Definition stored_cursor (w : World) : value :=
  match files w !! "update.id"%string with
  | Some (Pickle v) => v
  | _ => VDict []
  end.

(** The Monday the create transition targets, and the question it asks. *)
Definition target_monday (env : Env) : date :=
  fromordinal (toordinal (today env) + (MONDAY - weekday (today env))).

Definition question (env : Env) : string :=
  "Abfrage " +:+ isoformat (target_monday env).

(** The day the evaluate transition fires for a poll on [pd]. *)
Definition trigger_date (pd : date) : date :=
  fromordinal (toordinal pd + (FRIDAY - weekday pd)).

(** [self.data] and the file poll.data both hold [d'] afterwards. *)
Definition persisted (self : nat) (b : BadmintonBot) (d' : PersistentData)
    (w w' : World) : Prop :=
  files w' = <["poll.data"%string := Pickle (VData d')]> (files w)
  /\ heap w' = <[self := with_data b (VData d')]> (heap w).

(** Nothing on disk and no object has changed. *)
Definition untouched (w w' : World) : Prop :=
  files w' = files w /\ heap w' = heap w.

(** What one update contributes to the tally: the line printed, or the
    exception raised by the two subscripts. *)
Definition tally (the_poll_id : option string) (options : list string)
    (u : telegram.Update) : result (list string) :=
  match telegram.poll_answer u with
  | Some pa =>
      if bool_decide (the_poll_id = Some (telegram.poll_id pa)) then
        match py_index (telegram.option_ids pa) 0 with
        | Some i =>
            match py_index options i with
            | Some chosen => Ok [vote_line (telegram.user pa) chosen]
            | None => Raise IndexError
            end
        | None => Raise IndexError
        end
      else Ok []
  | None => Ok []
  end.

(** The lines printed by the loop, and how it ends. *)
Fixpoint tally_all (the_poll_id : option string) (options : list string)
    (us : list telegram.Update) : list string * result unit :=
  match us with
  | [] => ([], Ok tt)
  | u :: us' =>
      match tally the_poll_id options u with
      | Ok ls =>
          let '(rest, r) := tally_all the_poll_id options us' in (ls ++ rest, r)
      | Raise e => ([], Raise e)
      end
  end.

(** What [get_updates] hands back: a timeout counts as no update. *)
Definition fetched (env : Env) (token : string) (update_id : value)
    : result (list telegram.Update) :=
  match telegram.get_updates (service env) token (offset_of update_id) with
  | Ok us => Ok us
  | Raise e => if bool_decide (e = SocketTimeout) then Ok [] else Raise e
  end.

(** What the evaluate transition does after the poll is stopped: the
    lines it prints and how it ends. *)
Definition evaluation (env : Env) (b : BadmintonBot) (the_poll_id : option string)
    : list string * result unit :=
  match fetched env (bot b) (VInt (-100)) with
  | Ok us => tally_all the_poll_id default_options us
  | Raise e => ([], Raise e)
  end.

(** The object [__init__] builds, and the file it leaves. *)
Definition initial_value (fs : gmap string file) : value :=
  match fs !! "poll.data"%string with
  | Some (Pickle v) => if is_dict v then VData PersistentData_empty else v
  | _ => VData PersistentData_empty
  end.

Definition initial_files (fs : gmap string file) : gmap string file :=
  match fs !! "poll.data"%string with
  | Some (Pickle v) =>
      if is_dict v then <["poll.data"%string := Pickle (VData PersistentData_empty)]> fs
      else fs
  | _ => <["poll.data"%string := Pickle (VData PersistentData_empty)]> fs
  end.

(** A second bot object, with another token and another chat. *)
Definition other_bot : BadmintonBot :=
  {| bot := "other-token"; group_id := "other-group"; data := VData PersistentData_empty |}.

(** A vote for the stored poll that the two subscripts cannot read: no
    chosen option (a retracted vote), or a first chosen index that is not
    an index of the two default options. *)
Definition faulty_vote (the_poll_id : option string) (u : telegram.Update) : Prop :=
  exists pa, telegram.poll_answer u = Some pa
    /\ the_poll_id = Some (telegram.poll_id pa)
    /\ (telegram.option_ids pa = []
        \/ exists i rest, telegram.option_ids pa = i :: rest /\ (2 <= i \/ i < -2)).

(** The invariant of the specification: the three fields are null together
    or non-null together. *)
Definition all_or_nothing (d : PersistentData) : Prop :=
  (poll_message_id d = None /\ poll_id d = None /\ polling_date d = None)
  \/ (is_Some (poll_message_id d) /\ is_Some (poll_id d) /\ is_Some (polling_date d)).

(** What holds of every state the code writes: the two identifiers are
    null together, and they are null when the date is. *)
Definition identifiers_paired (d : PersistentData) : Prop :=
  (poll_message_id d = None <-> poll_id d = None)
  /\ (polling_date d = None -> poll_message_id d = None /\ poll_id d = None).

(** The file poll.data is missing, or holds a state that satisfies [P]. *)
Definition poll_file (P : PersistentData -> Prop) (fs : gmap string file) : Prop :=
  fs !! "poll.data"%string = None
  \/ exists d, fs !! "poll.data"%string = Some (Pickle (VData d)) /\ P d.

(** The files the script can leave: it is first run where poll.data was
    never written, and every later run starts from the files of the run
    before, in surroundings among [allowed]. *)
Inductive reachable (allowed : Env -> Prop) : gmap string file -> Prop :=
  | reachable_first fs :
      fs !! "poll.data"%string = None -> reachable allowed fs
  | reachable_run env fs w r :
      reachable allowed fs -> allowed env ->
      run_script env fs = (w, r) ->
      reachable allowed (files w).

(** Surroundings in which no [send_poll] call times out. *)
Definition send_poll_never_times_out (env : Env) : Prop :=
  forall token chat q options anonymous,
    telegram.send_poll (service env) token chat q options anonymous
    <> Raise SocketTimeout.

(** How one controller step changes the state it writes. *)
Inductive transition (env : Env) (d : PersistentData) : PersistentData -> Prop :=
  | transition_noop :
      is_Some (polling_date d) -> transition env d d
  | transition_evaluate :
      is_Some (polling_date d) -> transition env d PersistentData_empty
  | transition_create message_id the_poll_id :
      polling_date d = None ->
      transition env d
        (PersistentData_init (Some message_id) (Some the_poll_id)
           (Some (target_monday env)))
  | transition_create_failed token chat q options anonymous :
      polling_date d = None ->
      telegram.send_poll (service env) token chat q options anonymous
      = Raise SocketTimeout ->
      transition env d (PersistentData_init None None (Some (target_monday env))).

(* ===================================================================== *)
(** ** The vocabulary of the further properties                          *)
(* ===================================================================== *)

(** The poll answer an update carries, when it answers the stored poll. *)
Definition matching_answer (the_poll_id : option string) (u : telegram.Update)
    : option telegram.PollAnswer :=
  match telegram.poll_answer u with
  | Some pa =>
      if bool_decide (the_poll_id = Some (telegram.poll_id pa)) then Some pa else None
  | None => None
  end.

(** A vote whose first chosen index is an index of the two default
    options, counted from the front (0, 1) or from the end (-2, -1). *)
Definition readable_vote (pa : telegram.PollAnswer) : Prop :=
  exists i rest, telegram.option_ids pa = i :: rest /\ -2 <= i < 2.

(** The default option such an index selects. *)
Definition option_text (i : Z) : string :=
  if bool_decide (i = 0 \/ i = -2) then "Ja" else "Nein".

(** The line printed for a readable vote, and the lines printed for the
    answers to the stored poll among the updates, in their order. *)
Definition printed_line (pa : telegram.PollAnswer) : string :=
  vote_line (telegram.user pa) (option_text (default 0 (head (telegram.option_ids pa)))).

Definition printed_lines (the_poll_id : option string) (us : list telegram.Update)
    : list string :=
  printed_line <$> omap (matching_answer the_poll_id) us.

(** What the [__main__] block prints when a variable is missing. *)
Definition configuration_message : string :=
  "Environment variables 'BOT_TOKEN' and 'GROUP_ID' must be set".

(** The calls one run of the script can make. *)
Inductive run_calls : list telegram.call -> Prop :=
  | run_calls_none : run_calls []
  | run_calls_create token chat q :
      run_calls [telegram.SendPoll token chat q default_options false]
  | run_calls_stop token chat message_id :
      run_calls [telegram.StopPoll token chat message_id]
  | run_calls_evaluate token chat message_id :
      run_calls [telegram.StopPoll token chat message_id;
                 telegram.GetUpdates token (Some (VInt (-100)))].

(* ===================================================================== *)
(** ** How the monad runs                                                *)
(* ===================================================================== *)

Lemma run_bind {A B} (m : M A) (k : A -> M B) env w :
  (m ≫= k) env w =
  match m env w with
  | (w', Ok a) => k a env w'
  | (w', Raise e) => (w', Raise e)
  end.
Proof. reflexivity. Qed.

Lemma run_ret {A} (a : A) env w : (mret a : M A) env w = (w, Ok a).
Proof. reflexivity. Qed.

Lemma run_deref self b env w :
  heap w !! self = Some b -> deref self env w = (w, Ok b).
Proof. intros H. unfold deref. rewrite run_bind. cbn. rewrite H. reflexivity. Qed.

Lemma run_data_get {A} self (getter : PersistentData -> A) b d env w :
  heap w !! self = Some b -> data b = VData d ->
  data_get self getter env w = (w, Ok (getter d)).
Proof.
  intros H Hd. unfold data_get. rewrite run_bind, (run_deref _ b) by done.
  rewrite Hd. reflexivity.
Qed.

Lemma run_assign_data self v b env w :
  heap w !! self = Some b ->
  assign_data self v env w
  = (set_heap (<[self := with_data b v]> (heap w)) w, Ok tt).
Proof.
  intros H. unfold assign_data. rewrite run_bind, (run_deref _ b) by done.
  reflexivity.
Qed.

Lemma run_data_set self setter b d env w :
  heap w !! self = Some b -> data b = VData d ->
  data_set self setter env w
  = (set_heap (<[self := with_data b (VData (setter d))]> (heap w)) w, Ok tt).
Proof.
  intros H Hd. unfold data_set. rewrite run_bind, (run_deref _ b) by done.
  rewrite Hd. by apply run_assign_data.
Qed.

Lemma run_get_next_date weekday arg env w :
  get_next_date weekday arg env w
  = (w, let d := default (today env) arg in
        match add_days d (weekday - datetime.weekday d) with
        | Some r => Ok r
        | None => Raise OverflowError
        end).
Proof.
  unfold get_next_date, date_add, date_today.
  destruct arg as [d|]; cbn.
  - unfold mbind, M_bind, mret, M_ret. cbn. by destruct (add_days d _).
  - unfold mbind, M_bind, mret, M_ret, ask. cbn. by destruct (add_days (today env) _).
Qed.

(* ===================================================================== *)
(** ** Date utility                                                      *)
(* ===================================================================== *)

Example isoformat_sample :
  datetime.isoformat (datetime.ymd 2024 1 8) = "2024-01-08"%string
  /\ datetime.isoformat (datetime.ymd 2024 2 29) = "2024-02-29"%string
  /\ datetime.isoformat (datetime.ymd 1999 12 31) = "1999-12-31"%string
  /\ datetime.isoformat (datetime.fromordinal 1) = "0001-01-01"%string
  /\ datetime.isoformat (datetime.fromordinal datetime.MAXORDINAL) = "9999-12-31"%string
  /\ datetime.weekday (datetime.ymd 2024 1 8) = 0.
Proof. vm_compute. repeat split. Qed.

Lemma weekday_range d : 0 <= weekday d <= 6.
Proof. unfold weekday. pose proof (Z.mod_pos_bound (toordinal d + 6) 7). lia. Qed.

Lemma add_days_Some d n :
  MINORDINAL <= toordinal d + n <= MAXORDINAL ->
  add_days d n = Some (fromordinal (toordinal d + n)).
Proof. intros H. unfold add_days. by rewrite bool_decide_eq_true_2. Qed.

Lemma add_days_None d n :
  ~ (MINORDINAL <= toordinal d + n <= MAXORDINAL) -> add_days d n = None.
Proof. intros H. unfold add_days. by rewrite bool_decide_eq_false_2. Qed.

Lemma weekday_shift d n :
  weekday (fromordinal (toordinal d + n)) = (weekday d + n) mod 7.
Proof.
  unfold weekday. cbn.
  rewrite Zplus_mod_idemp_l. f_equal. lia.
Qed.

(** The date in the week (Monday to Sunday) of [d] that falls on weekday
    number [w]; for [w = 7] the Monday after that week. *)
Lemma get_next_date_value (w : Z) (arg : option date) env σ :
  let d := default (today env) arg in
  MINORDINAL <= toordinal d + (w - weekday d) <= MAXORDINAL ->
  get_next_date w arg env σ
  = (σ, Ok (fromordinal (toordinal d + (w - weekday d)))).
Proof.
  intros d H. rewrite run_get_next_date. fold d.
  cbn zeta. by rewrite add_days_Some.
Qed.

Lemma weekday_of_next (w : Z) (d : date) :
  weekday (fromordinal (toordinal d + (w - weekday d))) = w mod 7.
Proof. rewrite weekday_shift. f_equal. lia. Qed.

Ltac weekday_arith :=
  unfold valid, weekday, MINORDINAL, MAXORDINAL, MONDAY, FRIDAY in *; cbn in *;
  Z.div_mod_to_equations; lia.

(** [get_next_date(FRIDAY, d)] is defined for every date. *)
Lemma friday_in_range (d : date) :
  valid d -> MINORDINAL <= toordinal d + (FRIDAY - weekday d) <= MAXORDINAL.
Proof. intros H. weekday_arith. Qed.

Lemma run_get_next_friday (arg : option date) env σ :
  let d := default (today env) arg in
  valid d ->
  get_next_date FRIDAY arg env σ
  = (σ, Ok (fromordinal (toordinal d + (FRIDAY - weekday d)))).
Proof. intros d H. apply get_next_date_value. by apply friday_in_range. Qed.

(** C1, as the specification states it, fails on the code: on a Saturday
    the Friday returned is the day before, and with [MONDAY = 7] the result
    of a Monday is seven days later, on weekday 0. *)
Lemma saturday_friday_is_the_day_before :
  let env := sample_env (sample_service []) (ymd 2024 1 6) in
  let σ := fresh_process ∅ in
  (get_next_date FRIDAY (Some (ymd 2024 1 6)) env σ = (σ, Ok (ymd 2024 1 5))
   /\ ~ next_occurrence_spec FRIDAY (ymd 2024 1 6) (ymd 2024 1 5))
  /\ (get_next_date MONDAY (Some (ymd 2024 1 8)) env σ = (σ, Ok (ymd 2024 1 15))
      /\ ~ next_occurrence_spec MONDAY (ymd 2024 1 8) (ymd 2024 1 15)).
Proof.
  cbn zeta. repeat split.
  - intros (_ & H & _). vm_compute in H. by apply H.
  - intros (H & _). vm_compute in H. discriminate.
Qed.

(** C1 (amended): for a weekday number [w] in 0..6 that is not before the
    weekday of [d], [get_next_date(w, d)] meets the specification whenever
    the result is a representable date; for [MONDAY] (the offset 7) the
    result is the Monday strictly after [d], at most seven days later; for
    [FRIDAY] the specification is met on every Monday to Friday. An omitted
    date stands for today. *)
Theorem get_next_date_spec (arg : option date) (env : Env) (σ : World) :
  let d := default (today env) arg in
  valid d ->
  (forall w, weekday d <= w <= 6 ->
     toordinal d + (w - weekday d) <= MAXORDINAL ->
     exists r, get_next_date w arg env σ = (σ, Ok r)
       /\ valid r /\ next_occurrence_spec w d r)
  /\ (toordinal d + (MONDAY - weekday d) <= MAXORDINAL ->
      exists r, get_next_date MONDAY arg env σ = (σ, Ok r)
        /\ valid r /\ weekday r = 0
        /\ toordinal d < toordinal r /\ toordinal r - toordinal d <= 7
        /\ (weekday d = 0 -> toordinal r = toordinal d + 7))
  /\ (weekday d <= FRIDAY ->
      exists r, get_next_date FRIDAY arg env σ = (σ, Ok r)
        /\ valid r /\ next_occurrence_spec FRIDAY d r).
Proof.
  intros d Hd.
  assert (Hgen : forall w, weekday d <= w <= 6 ->
     toordinal d + (w - weekday d) <= MAXORDINAL ->
     exists r, get_next_date w arg env σ = (σ, Ok r)
       /\ valid r /\ next_occurrence_spec w d r).
  { intros w Hw Hmax.
    exists (fromordinal (toordinal d + (w - weekday d))).
    pose proof (weekday_range d) as Hr.
    split; [|split].
    - apply get_next_date_value. fold d. unfold valid, MINORDINAL in *. lia.
    - unfold valid, MINORDINAL in *. cbn. lia.
    - unfold next_occurrence_spec. rewrite weekday_of_next. cbn.
      repeat split; try lia.
      + apply Z.mod_small. lia.
      + intros ->. destruct d as [o]. cbn. f_equal. lia. }
  split; [exact Hgen|split].
  - intros Hmax.
    exists (fromordinal (toordinal d + (MONDAY - weekday d))).
    pose proof (weekday_range d) as Hr.
    split; [|split; [|split]].
    + apply get_next_date_value. fold d.
      unfold valid, MINORDINAL, MONDAY in *. lia.
    + unfold valid, MINORDINAL, MONDAY in *. cbn. lia.
    + by rewrite weekday_of_next.
    + cbn. unfold MONDAY. lia.
  - intros Hf. apply Hgen; [unfold FRIDAY in *; lia|].
    by apply friday_in_range.
Qed.

(** The theorem at Wednesday 2024-01-03. *)
Lemma get_next_date_spec_witness :
  let env := sample_env (sample_service []) (ymd 2024 1 3) in
  valid (ymd 2024 1 3)
  /\ (exists r, get_next_date MONDAY None env (fresh_process ∅)
                = (fresh_process ∅, Ok r)
        /\ valid r /\ weekday r = 0
        /\ toordinal (ymd 2024 1 3) < toordinal r
        /\ toordinal r - toordinal (ymd 2024 1 3) <= 7
        /\ (weekday (ymd 2024 1 3) = 0 -> toordinal r = toordinal (ymd 2024 1 3) + 7))
  /\ (exists r, get_next_date FRIDAY None env (fresh_process ∅)
                = (fresh_process ∅, Ok r)
        /\ valid r /\ next_occurrence_spec FRIDAY (ymd 2024 1 3) r).
Proof.
  intros env.
  assert (Hv : valid (ymd 2024 1 3)) by (by vm_compute).
  split; [exact Hv|].
  destruct (get_next_date_spec None env (fresh_process ∅) Hv) as (_ & Hm & Hf).
  split.
  - apply Hm. by vm_compute.
  - apply Hf. by vm_compute.
Defined.

(* ===================================================================== *)
(** ** State store                                                       *)
(* ===================================================================== *)

Lemma run_logging_info fmt args env w :
  logging_info fmt args env w = (logged fmt args w, Ok tt).
Proof. reflexivity. Qed.

Lemma run_store v f env w :
  store v f env w
  = (set_files (<[f := Pickle v]> (files w)) (logged "Storing data in %s" [ArgStr f] w),
     Ok tt).
Proof. reflexivity. Qed.

Lemma run_load f env w :
  load f env w
  = (logged "Loading data from %s" [ArgStr f] w,
     match files w !! f with
     | None => Ok (VDict [])
     | Some Garbage => Raise UnpicklingError
     | Some (Pickle v) => Ok v
     end).
Proof.
  unfold load, try_except, open_and_unpickle. rewrite run_bind. cbn.
  rewrite run_bind. cbn.
  destruct (files w !! f) as [[v|]|]; reflexivity.
Qed.

(** C8: for a key that was never written, [load] returns the empty map
    and raises nothing; [load] raises only when the file is there and is
    not a pickle. *)
Theorem load_missing_key (key : string) (env : Env) (w : World) :
  (files w !! key = None ->
   exists w', load key env w = (w', Ok (VDict []))
     /\ files w' = files w /\ calls w' = calls w)
  /\ (forall w' e, load key env w = (w', Raise e) ->
      files w !! key = Some Garbage /\ e = UnpicklingError).
Proof.
  rewrite run_load. split.
  - intros ->. eexists. split; [reflexivity|done].
  - intros w' e. destruct (files w !! key) as [[v|]|]; intros [= <- <-]; done.
Qed.

Lemma load_missing_key_witness :
  let w := fresh_process pending_files in
  files w !! "update.id"%string = None
  /\ exists w', load "update.id" (sample_env (sample_service []) (ymd 2024 1 3)) w
                = (w', Ok (VDict []))
       /\ files w' = files w /\ calls w' = calls w.
Proof.
  intros w. assert (H : files w !! "update.id"%string = None) by (by vm_compute).
  split; [exact H|].
  exact (proj1 (load_missing_key "update.id"
                  (sample_env (sample_service []) (ymd 2024 1 3)) w) H).
Defined.

(* ===================================================================== *)
(** ** Chat gateway                                                      *)
(* ===================================================================== *)

Lemma run_send_poll g bg question options env w :
  heap w !! g = Some bg ->
  let opts := default default_options options in
  let c := telegram.SendPoll (bot bg) (group_id bg) question opts false in
  send_poll g question options env w
  = match telegram.send_poll (service env) (bot bg) (group_id bg) question opts false with
    | Ok m => (called c w,
               Ok (Some (telegram.message_id m), Some (telegram.id (telegram.poll m))))
    | Raise e =>
        if bool_decide (e = SocketTimeout)
        then (logged "Caught exception %s" [ArgExn SocketTimeout] (called c w),
              Ok (None, None))
        else (called c w, Raise e)
    end.
Proof.
  intros H opts c. unfold send_poll.
  rewrite run_bind, (run_deref _ bg) by done.
  unfold try_except, bot_send_poll, logging_info, mbind, M_bind, ask, lift, modify.
  cbn. fold opts.
  destruct (telegram.send_poll _ _ _ _ _ _) as [m|e]; [reflexivity|].
  destruct (bool_decide (e = SocketTimeout)); reflexivity.
Qed.

Lemma run_get_updates self b update_id env w :
  heap w !! self = Some b ->
  let c := telegram.GetUpdates (bot b) (offset_of update_id) in
  let w1 := called c (logged (fetch_note update_id).1 (fetch_note update_id).2 w) in
  get_updates self update_id env w
  = match telegram.get_updates (service env) (bot b) (offset_of update_id) with
    | Ok us => (w1, Ok us)
    | Raise e =>
        if bool_decide (e = SocketTimeout)
        then (logged "Caught exception %s" [ArgExn SocketTimeout] w1, Ok [])
        else (w1, Raise e)
    end.
Proof.
  intros H c w1. unfold get_updates.
  rewrite run_bind, (run_deref _ b) by done.
  unfold try_except, bot_get_updates, logging_info, mbind, M_bind, ask, lift, modify.
  destruct update_id; cbn;
    (destruct (telegram.get_updates _ _ _) as [us|e]; [reflexivity|];
     destruct (bool_decide (e = SocketTimeout)); reflexivity).
Qed.

Lemma run_get_updates_empty self b update_id env w :
  heap w !! self = Some b ->
  fetch_empty env (bot b) update_id ->
  exists w', get_updates self update_id env w = (w', Ok [])
    /\ files w' = files w /\ heap w' = heap w /\ stdout w' = stdout w.
Proof.
  intros H [E|E]; rewrite (run_get_updates _ b) by done; rewrite E; cbn;
    eexists; (split; [reflexivity|done]).
Qed.

(** C7: whatever cursor is stored, an empty fetch makes
    [get_latest_updates] raise [IndexError], and the file of the cursor is
    left as it was. *)
Theorem get_latest_updates_empty (self : nat) (b : BadmintonBot) (env : Env) (w : World) :
  heap w !! self = Some b ->
  files w !! "update.id"%string <> Some Garbage ->
  fetch_empty env (bot b) (stored_cursor w) ->
  exists w', get_latest_updates self env w = (w', Raise IndexError)
    /\ files w' = files w.
Proof.
  intros Hs Hg He. unfold get_latest_updates.
  rewrite run_bind, run_load.
  assert (Hload : match files w !! "update.id"%string with
                  | None => Ok (VDict [])
                  | Some Garbage => Raise UnpicklingError
                  | Some (Pickle v) => Ok v
                  end = Ok (stored_cursor w)).
  { unfold stored_cursor. destruct (files w !! "update.id"%string) as [[v|]|]; done. }
  rewrite Hload.
  destruct (run_get_updates_empty self b (stored_cursor w) env
              (logged "Loading data from %s" [ArgStr "update.id"%string] w))
    as (w1 & E & Hf & _); [done..|].
  rewrite run_bind, E. rewrite run_bind. cbn.
  eexists. split; [reflexivity|done].
Qed.

Lemma get_latest_updates_empty_witness :
  let w := sample_world {[ "update.id"%string := Pickle (VInt 17) ]}
             (VData pending_data) in
  exists w', get_latest_updates 0 (sample_env timeout_service (ymd 2024 1 3)) w
             = (w', Raise IndexError)
    /\ files w' !! "update.id"%string = Some (Pickle (VInt 17)).
Proof.
  intros w.
  destruct (get_latest_updates_empty 0 (sample_bot (VData pending_data))
              (sample_env timeout_service (ymd 2024 1 3)) w)
    as (w' & E & Hf).
  - by vm_compute.
  - by vm_compute.
  - right. by vm_compute.
  - exists w'. split; [exact E|]. rewrite Hf. by vm_compute.
Defined.

(* ===================================================================== *)
(** ** Poll controller                                                   *)
(* ===================================================================== *)

Lemma run_read_global_bot env w :
  read_global_bot env w
  = (w, match global_bot w with Some g => Ok g | None => Raise NameError end).
Proof.
  unfold read_global_bot. rewrite run_bind. cbn. by destruct (global_bot w).
Qed.

Lemma target_monday_in_range env :
  valid (today env) ->
  toordinal (today env) + (MONDAY - weekday (today env)) <= MAXORDINAL ->
  MINORDINAL <= toordinal (today env) + (MONDAY - weekday (today env)) <= MAXORDINAL.
Proof. intros Hv Hm. pose proof (weekday_range (today env)). weekday_arith. Qed.

(** The create transition, whatever [send_poll] answers. *)
Lemma run_manage_create self b d g bg env w :
  heap w !! self = Some b -> data b = VData d -> polling_date d = None ->
  MINORDINAL <= toordinal (today env) + (MONDAY - weekday (today env)) <= MAXORDINAL ->
  global_bot w = Some g -> heap w !! g = Some bg ->
  let c := telegram.SendPoll (bot bg) (group_id bg) (question env) default_options false in
  exists w' r, manage_badminton_poll self env w = (w', r)
    /\ calls w' = calls w ++ [c] /\ stdout w' = stdout w
    /\ match telegram.send_poll (service env) (bot bg) (group_id bg)
               (question env) default_options false with
       | Ok m =>
           r = Ok tt
           /\ persisted self b
                (PersistentData_init (Some (telegram.message_id m))
                   (Some (telegram.id (telegram.poll m))) (Some (target_monday env)))
                w w'
       | Raise e =>
           if bool_decide (e = SocketTimeout)
           then r = Ok tt
                /\ persisted self b
                     (PersistentData_init None None (Some (target_monday env))) w w'
           else r = Raise e /\ untouched w w'
       end.
Proof.
  intros Hs Hd Hp Hr Hg Hbg c. unfold manage_badminton_poll, get_polling_date, get_poll_id, get_poll_message_id.
  rewrite run_bind, (run_data_get _ _ b d) by done. rewrite Hp.
  rewrite run_bind.
  rewrite run_bind, get_next_date_value by done. cbn [default].
  fold (target_monday env).
  rewrite run_bind, run_logging_info.
  rewrite run_bind, run_read_global_bot. cbn [global_bot logged set_log]. rewrite Hg.
  rewrite run_bind, (run_send_poll _ bg) by done.
  fold (question env). cbn [default]. fold c.
  destruct (telegram.send_poll _ _ _ _ _ _) as [m|e].
  - rewrite run_bind, (run_data_set _ _ b d) by done.
    rewrite run_bind. erewrite run_data_set;
      [|cbn; apply lookup_insert_eq|reflexivity].
    erewrite run_data_set; [|cbn; apply lookup_insert_eq|reflexivity].
    rewrite run_bind. erewrite run_deref; [|cbn; apply lookup_insert_eq].
    rewrite run_store. cbn.
    eexists _, _. split; [reflexivity|]. cbn.
    repeat split. by rewrite !insert_insert_eq.
  - destruct (bool_decide (e = SocketTimeout)).
    + rewrite run_bind, (run_data_set _ _ b d) by done.
      rewrite run_bind. erewrite run_data_set;
        [|cbn; apply lookup_insert_eq|reflexivity].
      erewrite run_data_set; [|cbn; apply lookup_insert_eq|reflexivity].
      rewrite run_bind. erewrite run_deref; [|cbn; apply lookup_insert_eq].
      rewrite run_store. cbn.
      eexists _, _. split; [reflexivity|]. cbn.
      repeat split. by rewrite !insert_insert_eq.
    + eexists _, _. split; [reflexivity|]. cbn. done.
Qed.

(** The create transition with the name [bot] unbound. *)
Lemma run_manage_create_unbound self b d env w :
  heap w !! self = Some b -> data b = VData d -> polling_date d = None ->
  MINORDINAL <= toordinal (today env) + (MONDAY - weekday (today env)) <= MAXORDINAL ->
  global_bot w = None ->
  exists w', manage_badminton_poll self env w = (w', Raise NameError)
    /\ untouched w w' /\ calls w' = calls w /\ stdout w' = stdout w.
Proof.
  intros Hs Hd Hp Hr Hg. unfold manage_badminton_poll, get_polling_date, get_poll_id, get_poll_message_id.
  rewrite run_bind, (run_data_get _ _ b d) by done. rewrite Hp.
  rewrite run_bind.
  rewrite run_bind, get_next_date_value by done.
  rewrite run_bind, run_logging_info.
  rewrite run_bind, run_read_global_bot. cbn [global_bot logged set_log]. rewrite Hg.
  eexists. split; [reflexivity|]. by cbn.
Qed.

(** The no-op: a poll is pending and today is not the trigger date. *)
Lemma run_manage_noop self b d pd env w :
  heap w !! self = Some b -> data b = VData d -> polling_date d = Some pd ->
  MINORDINAL <= toordinal pd + (FRIDAY - weekday pd) <= MAXORDINAL ->
  today env <> trigger_date pd ->
  exists w', manage_badminton_poll self env w = (w', Ok tt)
    /\ calls w' = calls w /\ stdout w' = stdout w /\ heap w' = heap w
    /\ files w' = <["poll.data"%string := Pickle (VData d)]> (files w).
Proof.
  intros Hs Hd Hp Hv Ht. unfold manage_badminton_poll, get_polling_date, get_poll_id, get_poll_message_id.
  rewrite run_bind, (run_data_get _ _ b d) by done. rewrite Hp.
  rewrite run_bind.
  rewrite run_bind. unfold date_today at 1. rewrite run_bind. cbn [ask]. rewrite run_ret.
  rewrite run_bind, (run_data_get _ _ b d) by done. rewrite Hp.
  rewrite run_bind, get_next_date_value by done.
  cbn [default]. fold (trigger_date pd). rewrite bool_decide_eq_false_2 by done.
  rewrite run_logging_info.
  rewrite run_bind, (run_deref _ b) by done. rewrite run_store, Hd.
  eexists. split; [reflexivity|]. by cbn.
Qed.

Lemma set_stdout_nil w : set_stdout (stdout w ++ []) w = w.
Proof. destruct w. unfold set_stdout. cbn. by rewrite app_nil_r. Qed.

Lemma set_stdout_app w l1 l2 :
  set_stdout (stdout (set_stdout (stdout w ++ l1) w) ++ l2) (set_stdout (stdout w ++ l1) w)
  = set_stdout (stdout w ++ (l1 ++ l2)) w.
Proof. unfold set_stdout. cbn. by rewrite app_assoc. Qed.

Lemma run_evaluate_update the_poll_id options u env w :
  evaluate_update the_poll_id options u env w
  = match tally the_poll_id options u with
    | Ok ls => (set_stdout (stdout w ++ ls) w, Ok tt)
    | Raise e => (w, Raise e)
    end.
Proof.
  unfold evaluate_update, tally, index.
  destruct (telegram.poll_answer u) as [pa|]; [|by rewrite run_ret, set_stdout_nil].
  destruct (bool_decide _); [|by rewrite run_ret, set_stdout_nil].
  rewrite run_bind.
  destruct (py_index (telegram.option_ids pa) 0) as [i|]; [|reflexivity].
  rewrite run_ret, run_bind.
  destruct (py_index options i) as [chosen|]; reflexivity.
Qed.

Lemma run_for_each_evaluate the_poll_id options us env w :
  for_each us (evaluate_update the_poll_id options) env w
  = (set_stdout (stdout w ++ (tally_all the_poll_id options us).1) w,
     (tally_all the_poll_id options us).2).
Proof.
  revert w. induction us as [|u us IH]; intros w; cbn [for_each tally_all].
  - by rewrite run_ret, set_stdout_nil.
  - rewrite run_bind, run_evaluate_update.
    destruct (tally the_poll_id options u) as [ls|e].
    + rewrite IH. destruct (tally_all the_poll_id options us) as [rest r].
      cbn [fst snd]. by rewrite set_stdout_app.
    + cbn [fst snd]. by rewrite set_stdout_nil.
Qed.

Lemma run_get_updates_fetched self b update_id env w :
  heap w !! self = Some b ->
  exists w', get_updates self update_id env w = (w', fetched env (bot b) update_id)
    /\ untouched w w' /\ stdout w' = stdout w /\ global_bot w' = global_bot w
    /\ calls w' = calls w ++ [telegram.GetUpdates (bot b) (offset_of update_id)].
Proof.
  intros H. rewrite (run_get_updates _ b) by done. unfold fetched.
  destruct (telegram.get_updates _ _ _) as [us|e];
    [|destruct (bool_decide (e = SocketTimeout))];
    (eexists; split; [reflexivity|by cbn]).
Qed.

Lemma run_evaluate_poll self b message_id the_poll_id env w :
  heap w !! self = Some b ->
  let stop := telegram.StopPoll (bot b) (group_id b) message_id in
  let fetch := telegram.GetUpdates (bot b) (Some (VInt (-100))) in
  exists w' r, evaluate_poll self message_id the_poll_id None env w = (w', r)
    /\ untouched w w' /\ global_bot w' = global_bot w
    /\ match telegram.stop_poll (service env) (bot b) (group_id b) message_id with
       | Raise e => r = Raise e /\ calls w' = calls w ++ [stop] /\ stdout w' = stdout w
       | Ok _ =>
           calls w' = calls w ++ [stop; fetch]
           /\ stdout w' = stdout w ++ (evaluation env b the_poll_id).1
           /\ r = (evaluation env b the_poll_id).2
       end.
Proof.
  intros Hs stop fetch. unfold evaluate_poll.
  rewrite run_bind, (run_deref _ b) by done.
  rewrite run_bind. unfold bot_stop_poll at 1.
  unfold mbind at 1, M_bind at 1, modify at 1, mbind at 1, M_bind at 1,
    ask at 1, lift at 1. cbn [service]. fold stop.
  destruct (telegram.stop_poll _ _ _ _) as [[]|e].
  - destruct (run_get_updates_fetched self b (VInt (-100)) env
                (set_calls (calls w ++ [stop]) w))
      as (w1 & E & [Hf Hh] & Ho & Hg & Hc); [done|].
    rewrite run_bind, E. unfold evaluation.
    destruct (fetched env (bot b) (VInt (-100))) as [us|e].
    + cbn [default]. rewrite run_for_each_evaluate.
      eexists _, _. split; [reflexivity|]. cbn. rewrite Hc, Ho. cbn.
      rewrite <- app_assoc. done.
    + eexists _, _. split; [reflexivity|]. rewrite Hc, Ho. cbn.
      rewrite <- app_assoc, app_nil_r. done.
  - eexists _, _. split; [reflexivity|]. by cbn.
Qed.

(** The evaluate transition: a poll is pending and today is the trigger
    date. *)
Lemma run_manage_evaluate self b d pd env w :
  heap w !! self = Some b -> data b = VData d -> polling_date d = Some pd ->
  MINORDINAL <= toordinal pd + (FRIDAY - weekday pd) <= MAXORDINAL ->
  today env = trigger_date pd ->
  let stop := telegram.StopPoll (bot b) (group_id b) (poll_message_id d) in
  let fetch := telegram.GetUpdates (bot b) (Some (VInt (-100))) in
  exists w' r, manage_badminton_poll self env w = (w', r)
    /\ match telegram.stop_poll (service env) (bot b) (group_id b) (poll_message_id d) with
       | Raise e =>
           r = Raise e /\ untouched w w'
           /\ calls w' = calls w ++ [stop] /\ stdout w' = stdout w
       | Ok _ =>
           calls w' = calls w ++ [stop; fetch]
           /\ stdout w' = stdout w ++ (evaluation env b (poll_id d)).1
           /\ match (evaluation env b (poll_id d)).2 with
              | Ok _ => r = Ok tt /\ persisted self b PersistentData_empty w w'
              | Raise e => r = Raise e /\ untouched w w'
              end
       end.
Proof.
  intros Hs Hd Hp Hv Ht stop fetch. unfold manage_badminton_poll, get_polling_date, get_poll_id, get_poll_message_id.
  rewrite run_bind, (run_data_get _ _ b d) by done. rewrite Hp.
  rewrite run_bind.
  rewrite run_bind. unfold date_today at 1. rewrite run_bind. cbn [ask]. rewrite run_ret.
  rewrite run_bind, (run_data_get _ _ b d) by done. rewrite Hp.
  rewrite run_bind, get_next_date_value by done.
  cbn [default]. fold (trigger_date pd). rewrite bool_decide_eq_true_2 by done.
  rewrite run_bind, (run_data_get _ _ b d) by done.
  rewrite run_bind, run_logging_info.
  rewrite run_bind, (run_data_get _ _ b d) by done.
  rewrite run_bind, (run_data_get _ _ b d) by done.
  rewrite run_bind.
  destruct (run_evaluate_poll self b (poll_message_id d) (poll_id d) env
              (logged "Evaluate poll from %s"
                 [ArgStr (from_option isoformat "None"%string (polling_date d))] w))
    as (w1 & r1 & E & [Hf Hh] & Hg & Hrest); [done|].
  rewrite E. cbn [calls stdout logged set_log] in Hrest.
  cbn [files heap logged set_log] in Hf, Hh.
  destruct (telegram.stop_poll _ _ _ _) as [[]|e].
  - destruct Hrest as (Hc & Ho & ->).
    destruct (evaluation env b (poll_id d)).2 as [[]|e].
    + rewrite (run_assign_data _ _ b) by (by rewrite Hh).
      rewrite run_bind. erewrite run_deref; [|cbn; apply lookup_insert_eq].
      rewrite run_store.
      eexists _, _. split; [reflexivity|]. cbn. rewrite Hf, Hh. done.
    + eexists _, _. split; [reflexivity|]. done.
  - destruct Hrest as (-> & Hc & Ho).
    eexists _, _. split; [reflexivity|]. done.
Qed.

(** A stored date from which [get_next_date(FRIDAY, ...)] overflows. *)
Lemma run_manage_overflow self b d pd env w :
  heap w !! self = Some b -> data b = VData d -> polling_date d = Some pd ->
  ~ (MINORDINAL <= toordinal pd + (FRIDAY - weekday pd) <= MAXORDINAL) ->
  manage_badminton_poll self env w = (w, Raise OverflowError).
Proof.
  intros Hs Hd Hp Hr. unfold manage_badminton_poll, get_polling_date, get_poll_id, get_poll_message_id.
  rewrite run_bind, (run_data_get _ _ b d) by done. rewrite Hp.
  rewrite run_bind.
  rewrite run_bind. unfold date_today at 1. rewrite run_bind. cbn [ask]. rewrite run_ret.
  rewrite run_bind, (run_data_get _ _ b d) by done. rewrite Hp.
  rewrite run_bind, run_get_next_date. cbn [default].
  by rewrite add_days_None.
Qed.

(** The create transition when next Monday is past [date.max]. *)
Lemma run_manage_create_overflow self b d env w :
  heap w !! self = Some b -> data b = VData d -> polling_date d = None ->
  ~ (MINORDINAL <= toordinal (today env) + (MONDAY - weekday (today env)) <= MAXORDINAL) ->
  manage_badminton_poll self env w = (w, Raise OverflowError).
Proof.
  intros Hs Hd Hp Hr. unfold manage_badminton_poll, get_polling_date, get_poll_id, get_poll_message_id.
  rewrite run_bind, (run_data_get _ _ b d) by done. rewrite Hp.
  rewrite run_bind.
  rewrite run_bind, run_get_next_date. cbn [default].
  by rewrite add_days_None.
Qed.

(** [self.data] is not a [PersistentData]. *)
Lemma run_manage_no_data self b env w :
  heap w !! self = Some b -> (forall d, data b <> VData d) ->
  manage_badminton_poll self env w = (w, Raise AttributeError).
Proof.
  intros Hs Hd. unfold manage_badminton_poll, get_polling_date, data_get.
  rewrite !run_bind, (run_deref _ b) by done.
  destruct (data b) as [| | |d]; try reflexivity. by destruct (Hd d).
Qed.

Lemma run_alloc b env w :
  alloc b env w
  = (set_heap (<[fresh (dom (heap w)) := b]> (heap w)) w, Ok (fresh (dom (heap w)))).
Proof. reflexivity. Qed.

Lemma run_init token group env w :
  files w !! "poll.data"%string <> Some Garbage ->
  exists w', BadmintonBot_init token group env w = (w', Ok (fresh (dom (heap w))))
    /\ files w' = initial_files (files w)
    /\ heap w' = <[fresh (dom (heap w)) :=
                    {| bot := token; group_id := group;
                       data := initial_value (files w) |}]> (heap w)
    /\ global_bot w' = global_bot w /\ calls w' = calls w /\ stdout w' = stdout w.
Proof.
  intros Hg. unfold BadmintonBot_init, initial_files, initial_value.
  rewrite run_bind, run_load.
  assert (Hdict : forall v, is_dict v = true ->
    exists w', (alloc {| bot := token; group_id := group; data := v |}
         ≫= λ self, (if is_dict v
                     then assign_data self (VData PersistentData_empty);;
                          store (VData PersistentData_empty) "poll.data"
                     else mret tt);; mret self) env
         (logged "Loading data from %s" [ArgStr "poll.data"%string] w)
      = (w', Ok (fresh (dom (heap w))))
      /\ files w' = <["poll.data"%string := Pickle (VData PersistentData_empty)]> (files w)
      /\ heap w' = <[fresh (dom (heap w)) :=
                    {| bot := token; group_id := group;
                       data := VData PersistentData_empty |}]> (heap w)
      /\ global_bot w' = global_bot w /\ calls w' = calls w /\ stdout w' = stdout w).
  { intros v Hv. rewrite run_bind, run_alloc. rewrite Hv.
    rewrite run_bind, run_bind.
    erewrite run_assign_data; [|cbn; apply lookup_insert_eq].
    rewrite run_store, run_ret.
    eexists. split; [reflexivity|]. cbn. by rewrite insert_insert_eq. }
  destruct (files w !! "poll.data"%string) as [[v|]|] eqn:E; [| done |].
  - destruct (is_dict v) eqn:Hv.
    { specialize (Hdict v Hv). by rewrite Hv in Hdict. }
    rewrite run_bind, run_alloc. rewrite run_bind, !run_ret.
    eexists. split; [reflexivity|]. by cbn.
  - by apply (Hdict (VDict [])).
Qed.

Lemma run_init_garbage token group env w :
  files w !! "poll.data"%string = Some Garbage ->
  exists w', BadmintonBot_init token group env w = (w', Raise UnpicklingError)
    /\ files w' = files w /\ calls w' = calls w /\ stdout w' = stdout w.
Proof.
  intros Hg. unfold BadmintonBot_init. rewrite run_bind, run_load, Hg.
  eexists. split; [reflexivity|]. by cbn.
Qed.

(** A run of the script with both environment variables set is
    [manage_badminton_poll] on the object [__init__] built, bound to the
    name [bot]. *)
Lemma run_script_manage env fs token group :
  BOT_TOKEN env = Some token -> GROUP_ID env = Some group ->
  fs !! "poll.data"%string <> Some Garbage ->
  exists w0 self,
    run_script env fs = manage_badminton_poll self env w0
    /\ files w0 = initial_files fs
    /\ heap w0 !! self
       = Some {| bot := token; group_id := group; data := initial_value fs |}
    /\ global_bot w0 = Some self /\ calls w0 = [] /\ stdout w0 = [].
Proof.
  intros Ht Hg Hf. unfold run_script, main.
  rewrite run_bind. cbn [ask]. rewrite Ht, Hg.
  destruct (run_init token group env (fresh_process fs)) as (w1 & E & H1 & H2 & H3 & H4 & H5);
    [done|].
  rewrite run_bind, E. rewrite run_bind. cbn [modify].
  eexists _, _. split; [reflexivity|]. cbn.
  rewrite H1, H2, H4, H5. cbn. by rewrite lookup_insert_eq.
Qed.

Lemma initial_pending fs d :
  fs !! "poll.data"%string = Some (Pickle (VData d)) ->
  initial_files fs = fs /\ initial_value fs = VData d.
Proof. intros H. unfold initial_files, initial_value. by rewrite H. Qed.

Lemma trigger_date_run pd env σ :
  valid pd ->
  get_next_date FRIDAY (Some pd) env σ = (σ, Ok (trigger_date pd)).
Proof. intros H. by apply (run_get_next_friday (Some pd)). Qed.

(** For a poll on a Monday the trigger date is the Friday of that week,
    four days after the Monday. *)
Lemma trigger_date_of_monday pd :
  weekday pd = 0 -> trigger_date pd = fromordinal (toordinal pd + 4).
Proof. intros H. unfold trigger_date. rewrite H. reflexivity. Qed.

(** C2 at Friday 2024-01-05 with a poll pending for Monday 2024-01-08: the
    run takes the no-op branch (no call, no line, the poll still pending),
    because the trigger date the code computes is Friday 2024-01-12. *)
Lemma friday_before_is_not_the_trigger :
  let env := sample_env (sample_service [vote 7 "poll-1" "Ann" [0]]) (ymd 2024 1 5) in
  let w' := (run_script env pending_files).1 in
  weekday (ymd 2024 1 8) = 0 /\ weekday (ymd 2024 1 5) = 4
  /\ toordinal (ymd 2024 1 8) - toordinal (ymd 2024 1 5) = 3
  /\ (run_script env pending_files).2 = Ok tt
  /\ calls w' = [] /\ stdout w' = [] /\ files w' = pending_files
  /\ get_next_date FRIDAY (Some (ymd 2024 1 8)) env (fresh_process pending_files)
     = (fresh_process pending_files, Ok (ymd 2024 1 12)).
Proof. vm_compute. repeat split. Qed.

(** Whatever Monday the poll is for, on the Friday three days before it
    the controller takes the no-op branch. *)
Lemma friday_before_monday_is_noop self b d pd env w :
  heap w !! self = Some b -> data b = VData d ->
  polling_date d = Some pd -> valid pd -> weekday pd = 0 ->
  toordinal (today env) = toordinal pd - 3 ->
  exists w', manage_badminton_poll self env w = (w', Ok tt)
    /\ calls w' = calls w /\ stdout w' = stdout w
    /\ files w' = <["poll.data"%string := Pickle (VData d)]> (files w).
Proof.
  intros Hs Hd Hp Hv Hmon Htoday.
  destruct (run_manage_noop self b d pd env w) as (w' & E & Hc & Ho & _ & Hf);
    [done|done|done|by apply friday_in_range| |by exists w'].
  rewrite trigger_date_of_monday by done. intros Heq.
  rewrite Heq in Htoday. cbn in Htoday. lia.
Qed.

(** C6: with a poll pending and today not the date
    [get_next_date(FRIDAY, polling_date)] returns, the controller makes no
    call on the chat and writes back the state it holds; a file that
    already held that state is left as it was. *)
Theorem noop_leaves_state (self : nat) (b : BadmintonBot) (d : PersistentData)
    (pd trigger : date) (env : Env) (w : World) :
  heap w !! self = Some b -> data b = VData d ->
  polling_date d = Some pd -> valid pd ->
  get_next_date FRIDAY (Some pd) env w = (w, Ok trigger) ->
  today env <> trigger ->
  exists w', manage_badminton_poll self env w = (w', Ok tt)
    /\ calls w' = calls w
    /\ heap w' = heap w
    /\ files w' = <["poll.data"%string := Pickle (VData d)]> (files w)
    /\ (files w !! "poll.data"%string = Some (Pickle (VData d)) -> files w' = files w).
Proof.
  intros Hs Hd Hp Hv Hn Ht.
  rewrite trigger_date_run in Hn by done. injection Hn as <-.
  destruct (run_manage_noop self b d pd env w) as (w' & E & Hc & _ & Hh & Hf);
    [done|done|done|by apply friday_in_range|done|].
  exists w'. repeat split; [done..|].
  intros Hfile. rewrite Hf. by apply insert_id.
Qed.

(** The theorem on Tuesday 2024-01-02, the poll pending for 2024-01-08. *)
Lemma noop_leaves_state_witness :
  let env := sample_env (sample_service []) (ymd 2024 1 2) in
  let w := sample_world pending_files (VData pending_data) in
  exists w', manage_badminton_poll 0 env w = (w', Ok tt)
    /\ calls w' = [] /\ files w' = pending_files.
Proof.
  intros env w.
  destruct (noop_leaves_state 0 (sample_bot (VData pending_data)) pending_data
              (ymd 2024 1 8) (ymd 2024 1 12) env w)
    as (w' & E & Hc & _ & _ & Hf).
  - by vm_compute.
  - reflexivity.
  - reflexivity.
  - by vm_compute.
  - by vm_compute.
  - by vm_compute.
  - exists w'. split; [exact E|]. split; [exact Hc|]. apply Hf. by vm_compute.
Defined.

(** C5: when [stop_poll] raises, whatever the exception, the run ends with
    that exception after the one call; nothing is written, so the files
    still hold the pending poll for the next run. *)
Theorem stop_poll_failure_aborts (env : Env) (fs : gmap string file)
    (d : PersistentData) (pd : date) (token group : string) (e : exn) :
  BOT_TOKEN env = Some token -> GROUP_ID env = Some group ->
  fs !! "poll.data"%string = Some (Pickle (VData d)) ->
  polling_date d = Some pd -> valid pd ->
  today env = trigger_date pd ->
  telegram.stop_poll (service env) token group (poll_message_id d) = Raise e ->
  exists w', run_script env fs = (w', Raise e)
    /\ files w' = fs
    /\ calls w' = [telegram.StopPoll token group (poll_message_id d)]
    /\ stdout w' = []
    /\ initial_value (files w') = VData d.
Proof.
  intros Ht Hg Hfile Hp Hv Htoday Hstop.
  destruct (run_script_manage env fs token group) as (w0 & self & E & Hf & Hs & _ & Hc & Ho);
    [done|done|by rewrite Hfile|].
  destruct (initial_pending fs d Hfile) as [Hif Hiv].
  rewrite Hif in Hf. rewrite Hiv in Hs.
  destruct (run_manage_evaluate self _ d pd env w0 Hs) as (w' & r & E' & Hrest);
    [done|done|by apply friday_in_range|done|].
  cbn [bot group_id] in Hrest. rewrite Hstop in Hrest.
  destruct Hrest as (-> & [Hf' Hh'] & Hc' & Ho').
  exists w'. rewrite E, E', Hf', Hf, Hc', Hc, Ho', Ho. done.
Qed.

Lemma stop_poll_failure_aborts_witness :
  let env := sample_env (stop_failing_service TelegramError) (ymd 2024 1 12) in
  exists w', run_script env pending_files = (w', Raise TelegramError)
    /\ files w' = pending_files
    /\ calls w' = [telegram.StopPoll "token" "group" (Some 42)]
    /\ stdout w' = []
    /\ initial_value (files w') = VData pending_data.
Proof.
  intros env.
  apply (stop_poll_failure_aborts env pending_files pending_data (ymd 2024 1 8)
           "token" "group" TelegramError); by vm_compute.
Defined.

Lemma target_monday_facts env :
  valid (today env) ->
  weekday (target_monday env) = 0
  /\ toordinal (today env) < toordinal (target_monday env) <= toordinal (today env) + 7.
Proof.
  intros Hv. pose proof (weekday_range (today env)).
  unfold target_monday. rewrite weekday_of_next. cbn. unfold MONDAY. split; [done|lia].
Qed.

(** C4: when the service times out on the poll, [send_poll] returns
    [(None, None)], and the create transition still ends normally and
    writes a state whose date is the target Monday and whose two
    identifiers are [None]. *)
Theorem create_records_failed_send (self g : nat) (b bg : BadmintonBot)
    (d : PersistentData) (env : Env) (w : World) :
  heap w !! self = Some b -> data b = VData d -> polling_date d = None ->
  global_bot w = Some g -> heap w !! g = Some bg ->
  valid (today env) ->
  toordinal (today env) + (MONDAY - weekday (today env)) <= MAXORDINAL ->
  telegram.send_poll (service env) (bot bg) (group_id bg) (question env)
    default_options false = Raise SocketTimeout ->
  (exists w1, send_poll g (question env) None env w = (w1, Ok (None, None)))
  /\ exists w', manage_badminton_poll self env w = (w', Ok tt)
       /\ files w' !! "poll.data"%string
          = Some (Pickle (VData (PersistentData_init None None (Some (target_monday env)))))
       /\ weekday (target_monday env) = 0
       /\ toordinal (today env) < toordinal (target_monday env) <= toordinal (today env) + 7.
Proof.
  intros Hs Hd Hp Hg Hbg Hv Hmax Hto. split.
  - rewrite (run_send_poll _ bg) by done. cbn [default]. rewrite Hto. cbn.
    by eexists.
  - destruct (run_manage_create self b d g bg env w) as (w' & r & E & _ & _ & Hrest);
      [done|done|done|by apply target_monday_in_range|done|done|].
    rewrite Hto in Hrest. cbn in Hrest. destruct Hrest as (-> & Hf & _).
    exists w'. split; [done|]. split; [by rewrite Hf, lookup_insert_eq|].
    by apply target_monday_facts.
Qed.

(** The theorem on Wednesday 2024-01-03: the state written holds Monday
    2024-01-08 and no identifier. *)
Lemma create_records_failed_send_witness :
  let env := sample_env timeout_service (ymd 2024 1 3) in
  let w := sample_world ∅ (VData PersistentData_empty) in
  exists w', manage_badminton_poll 0 env w = (w', Ok tt)
    /\ files w' !! "poll.data"%string
       = Some (Pickle (VData (PersistentData_init None None (Some (ymd 2024 1 8))))).
Proof.
  intros env w.
  destruct (create_records_failed_send 0 0 (sample_bot (VData PersistentData_empty))
              (sample_bot (VData PersistentData_empty)) PersistentData_empty env w)
    as (_ & w' & E & Hf & _).
  - by vm_compute.
  - reflexivity.
  - reflexivity.
  - reflexivity.
  - by vm_compute.
  - by vm_compute.
  - by vm_compute.
  - by vm_compute.
  - exists w'. split; [exact E|]. rewrite Hf. by vm_compute.
Defined.

(** C10: the create transition sends the poll through the object bound to
    the module-level name [bot]: with that name unbound it raises
    [NameError] before any call, and with the name bound the call carries
    the token and the chat of that object, whichever object is the
    receiver. *)
Theorem create_sends_through_global_bot (self : nat) (b : BadmintonBot)
    (d : PersistentData) (env : Env) (w : World) :
  heap w !! self = Some b -> data b = VData d -> polling_date d = None ->
  valid (today env) ->
  toordinal (today env) + (MONDAY - weekday (today env)) <= MAXORDINAL ->
  (global_bot w = None ->
   exists w', manage_badminton_poll self env w = (w', Raise NameError)
     /\ files w' = files w /\ heap w' = heap w /\ calls w' = calls w)
  /\ (forall g bg, global_bot w = Some g -> heap w !! g = Some bg ->
      exists w' r, manage_badminton_poll self env w = (w', r)
        /\ calls w' = calls w ++ [telegram.SendPoll (bot bg) (group_id bg)
                                    (question env) default_options false]).
Proof.
  intros Hs Hd Hp Hv Hmax.
  pose proof (target_monday_in_range env Hv Hmax) as Hr. split.
  - intros Hg.
    destruct (run_manage_create_unbound self b d env w) as (w' & E & [Hf Hh] & Hc & _);
      [done..|].
    by exists w'.
  - intros g bg Hg Hbg.
    destruct (run_manage_create self b d g bg env w) as (w' & r & E & Hc & _);
      [done..|].
    by exists w', r.
Qed.

Lemma create_sends_through_global_bot_witness :
  let env := sample_env (sample_service []) (ymd 2024 1 3) in
  let w0 := sample_world ∅ (VData PersistentData_empty) in
  (exists w', manage_badminton_poll 0 env (set_global_bot None w0)
              = (w', Raise NameError) /\ calls w' = [])
  /\ (exists w' r,
        manage_badminton_poll 0 env
          (set_global_bot (Some 1%nat) (set_heap (<[1%nat := other_bot]> (heap w0)) w0))
        = (w', r)
        /\ calls w' = [telegram.SendPoll "other-token" "other-group"
                         "Abfrage 2024-01-08" ["Ja"; "Nein"]%string false]).
Proof.
  intros env w0. split.
  - destruct (create_sends_through_global_bot 0 (sample_bot (VData PersistentData_empty))
                PersistentData_empty env (set_global_bot None w0))
      as [H _]; [by vm_compute|reflexivity|reflexivity|by vm_compute|by vm_compute|].
    destruct (H eq_refl) as (w' & E & _ & _ & Hc). by exists w'.
  - destruct (create_sends_through_global_bot 0 (sample_bot (VData PersistentData_empty))
                PersistentData_empty env
                (set_global_bot (Some 1%nat) (set_heap (<[1%nat := other_bot]> (heap w0)) w0)))
      as [_ H]; [by vm_compute|reflexivity|reflexivity|by vm_compute|by vm_compute|].
    destruct (H 1%nat other_bot) as (w' & r & E & Hc); [reflexivity|by vm_compute|].
    exists w', r. split; [exact E|]. rewrite Hc. by vm_compute.
Defined.

Lemma py_index_head {A} (x : A) (l : list A) : py_index (x :: l) 0 = Some x.
Proof.
  unfold py_index. rewrite bool_decide_eq_true_2; [done|].
  cbn [length]. lia.
Qed.

Lemma py_index_default_options i :
  2 <= i \/ i < -2 -> py_index default_options i = None.
Proof.
  intros H. unfold py_index, default_options. cbn [length].
  rewrite !bool_decide_eq_false_2 by lia. done.
Qed.

Lemma tally_faulty the_poll_id u :
  faulty_vote the_poll_id u -> tally the_poll_id default_options u = Raise IndexError.
Proof.
  intros (pa & Hpa & Hid & Hids). unfold tally.
  rewrite Hpa, bool_decide_eq_true_2 by done.
  destruct Hids as [->|(i & rest & -> & Hi)]; [done|].
  by rewrite py_index_head, py_index_default_options.
Qed.

Lemma tally_raises the_poll_id options u e :
  tally the_poll_id options u = Raise e -> e = IndexError.
Proof.
  unfold tally. intros H.
  repeat match type of H with
         | match ?x with _ => _ end = _ => destruct x
         | (if ?x then _ else _) = _ => destruct x
         end; congruence.
Qed.

Lemma tally_all_faulty the_poll_id us u :
  u ∈ us -> faulty_vote the_poll_id u ->
  (tally_all the_poll_id default_options us).2 = Raise IndexError.
Proof.
  intros Hin Hu. induction Hin as [u us|u v us Hin IH]; cbn [tally_all].
  - by rewrite tally_faulty.
  - destruct (tally the_poll_id default_options v) as [ls|e] eqn:E.
    + specialize (IH Hu). by destruct (tally_all the_poll_id default_options us).
    + by rewrite (tally_raises _ _ _ _ E).
Qed.

(** C9: on the trigger date, once the poll is stopped and the updates are
    fetched, a faulty vote among them makes the controller raise
    [IndexError]; the state is not reset and nothing is written. *)
Theorem evaluate_raises_on_faulty_vote (self : nat) (b : BadmintonBot)
    (d : PersistentData) (pd : date) (us : list telegram.Update)
    (u : telegram.Update) (env : Env) (w : World) :
  heap w !! self = Some b -> data b = VData d ->
  polling_date d = Some pd -> valid pd ->
  today env = trigger_date pd ->
  telegram.stop_poll (service env) (bot b) (group_id b) (poll_message_id d) = Ok tt ->
  telegram.get_updates (service env) (bot b) (Some (VInt (-100))) = Ok us ->
  u ∈ us -> faulty_vote (poll_id d) u ->
  exists w', manage_badminton_poll self env w = (w', Raise IndexError)
    /\ files w' = files w /\ heap w' = heap w
    /\ calls w' = calls w ++ [telegram.StopPoll (bot b) (group_id b) (poll_message_id d);
                              telegram.GetUpdates (bot b) (Some (VInt (-100)))].
Proof.
  intros Hs Hd Hp Hv Ht Hstop Hfetch Hin Hu.
  destruct (run_manage_evaluate self b d pd env w) as (w' & r & E & Hrest);
    [done|done|done|by apply friday_in_range|done|].
  rewrite Hstop in Hrest. destruct Hrest as (Hc & _ & Hr).
  assert (Hev : (evaluation env b (poll_id d)).2 = Raise IndexError).
  { unfold evaluation, fetched. cbn [offset_of]. rewrite Hfetch.
    by apply (tally_all_faulty _ _ u). }
  rewrite Hev in Hr. destruct Hr as (-> & Hf & Hh).
  by exists w'.
Qed.

(** The theorem on Friday 2024-01-12 with a vote, a retracted vote and a
    vote for a third option: the first line is printed, then the run
    raises. *)
Lemma evaluate_raises_on_faulty_vote_witness :
  let us := [vote 7 "poll-1" "Ann" [0]; vote 8 "poll-1" "Bob" []; vote 9 "poll-1" "Cy" [2]] in
  let env := sample_env (sample_service us) (ymd 2024 1 12) in
  let w := sample_world pending_files (VData pending_data) in
  exists w', manage_badminton_poll 0 env w = (w', Raise IndexError)
    /\ files w' = pending_files
    /\ stdout w' = ["User Ann None voted Ja"]%string.
Proof.
  intros us env w.
  destruct (evaluate_raises_on_faulty_vote 0 (sample_bot (VData pending_data))
              pending_data (ymd 2024 1 8) us (vote 8 "poll-1" "Bob" []) env w)
    as (w' & E & Hf & _).
  - by vm_compute.
  - reflexivity.
  - reflexivity.
  - by vm_compute.
  - by vm_compute.
  - reflexivity.
  - reflexivity.
  - apply list_elem_of_further, list_elem_of_here.
  - eexists. split; [reflexivity|]. split; [reflexivity|]. by left.
  - exists w'. split; [exact E|]. split; [exact Hf|].
    assert (Hrun : manage_badminton_poll 0 env w = (w', Raise IndexError)) by exact E.
    vm_compute in Hrun. injection Hrun as <-. reflexivity.
Defined.

(* ===================================================================== *)
(** ** The pending-poll invariant                                        *)
(* ===================================================================== *)

Lemma manage_transition self g b bg d env w w' r :
  heap w !! self = Some b -> data b = VData d ->
  global_bot w = Some g -> heap w !! g = Some bg ->
  manage_badminton_poll self env w = (w', r) ->
  files w' = files w
  \/ exists d', files w' = <["poll.data"%string := Pickle (VData d')]> (files w)
       /\ transition env d d'.
Proof.
  intros Hs Hd Hg Hbg Hrun.
  destruct (polling_date d) as [pd|] eqn:Hp.
  - destruct (decide (MINORDINAL <= toordinal pd + (FRIDAY - weekday pd) <= MAXORDINAL))
      as [Hr|Hr].
    + destruct (decide (today env = trigger_date pd)) as [Ht|Ht].
      * destruct (run_manage_evaluate self b d pd env w) as (w1 & r1 & E & Hrest);
          [done..|].
        rewrite Hrun in E. injection E as <- <-.
        destruct (telegram.stop_poll _ _ _ _) as [[]|e].
        -- destruct Hrest as (_ & _ & Hrest).
           destruct (evaluation env b (poll_id d)).2 as [[]|e].
           ++ destruct Hrest as (_ & Hf & _). right. eexists. split; [exact Hf|].
              apply transition_evaluate. by rewrite Hp.
           ++ left. by destruct Hrest as (_ & Hf & _).
        -- left. by destruct Hrest as (_ & [Hf _] & _).
      * destruct (run_manage_noop self b d pd env w) as (w1 & E & _ & _ & _ & Hf);
          [done..|].
        rewrite Hrun in E. injection E as -> ->.
        right. eexists. split; [exact Hf|]. apply transition_noop. by rewrite Hp.
    + rewrite (run_manage_overflow self b d pd) in Hrun by done.
      injection Hrun as <- <-. by left.
  - destruct (decide (MINORDINAL <= toordinal (today env)
                        + (MONDAY - weekday (today env)) <= MAXORDINAL)) as [Hr|Hr].
    + destruct (run_manage_create self b d g bg env w) as (w1 & r1 & E & _ & _ & Hrest);
        [done..|].
      rewrite Hrun in E. injection E as <- <-.
      destruct (telegram.send_poll _ _ _ _ _ _) as [m|e] eqn:Esend.
      * destruct Hrest as (_ & Hf & _). right. eexists. split; [exact Hf|].
        by apply transition_create.
      * destruct (bool_decide (e = SocketTimeout)) eqn:Ee.
        -- apply bool_decide_eq_true_1 in Ee as ->.
           destruct Hrest as (_ & Hf & _). right. eexists. split; [exact Hf|].
           by eapply transition_create_failed.
        -- left. by destruct Hrest as (_ & Hf & _).
    + rewrite (run_manage_create_overflow self b d) in Hrun by done.
      injection Hrun as <- <-. by left.
Qed.

Lemma run_script_no_configuration env fs :
  BOT_TOKEN env = None \/ GROUP_ID env = None ->
  exists w, run_script env fs = (w, Raise (SystemExit (-1)))
    /\ files w = fs /\ calls w = [].
Proof.
  intros H. unfold run_script, main. rewrite run_bind. cbn [ask].
  destruct H as [-> | ->]; [|destruct (BOT_TOKEN env)];
    (eexists; split; [reflexivity|done]).
Qed.

(** One run keeps a property of the stored state that the empty state has
    and every transition keeps. *)
Lemma run_script_poll_file (P : PersistentData -> Prop) env fs w r :
  P PersistentData_empty ->
  (forall d d', P d -> transition env d d' -> P d') ->
  run_script env fs = (w, r) ->
  poll_file P fs -> poll_file P (files w).
Proof.
  intros Hempty Hstep Hrun Hfs.
  destruct (BOT_TOKEN env) as [token|] eqn:Htok; cycle 1.
  { destruct (run_script_no_configuration env fs) as (w1 & E & Hf & _); [by left|].
    rewrite Hrun in E. injection E as -> ->. by rewrite Hf. }
  destruct (GROUP_ID env) as [group|] eqn:Hgrp; cycle 1.
  { destruct (run_script_no_configuration env fs) as (w1 & E & Hf & _); [by right|].
    rewrite Hrun in E. injection E as -> ->. by rewrite Hf. }
  assert (Hinit : exists d0, initial_value fs = VData d0 /\ P d0
            /\ initial_files fs !! "poll.data"%string = Some (Pickle (VData d0))).
  { unfold initial_value, initial_files.
    destruct Hfs as [Hnone|(d & Hd & HP)].
    - rewrite Hnone. exists PersistentData_empty. by rewrite lookup_insert_eq.
    - rewrite Hd. cbn. by exists d. }
  destruct Hinit as (d0 & Hv & HP & Hfile).
  destruct (run_script_manage env fs token group) as (w0 & self & E & Hf & Hs & Hg & _);
    [done|done| |].
  { destruct Hfs as [->|(d & -> & _)]; done. }
  rewrite Hrun in E. symmetry in E.
  destruct (manage_transition self self _ _ d0 env w0 w r Hs Hv Hg Hs E)
    as [Hsame|(d' & Hnew & Htr)].
  - right. exists d0. by rewrite Hsame, Hf.
  - right. exists d'. rewrite Hnew, lookup_insert_eq. eauto.
Qed.

Lemma transition_paired env d d' :
  identifiers_paired d -> transition env d d' -> identifiers_paired d'.
Proof.
  intros Hd Ht. destruct Ht; try done; unfold identifiers_paired; cbn; naive_solver.
Qed.

Lemma transition_all_or_nothing env d d' :
  send_poll_never_times_out env ->
  all_or_nothing d -> transition env d d' -> all_or_nothing d'.
Proof.
  intros Hne Hd Ht. destruct Ht as [| |m p Hp|token chat q o a Hp Hto].
  - done.
  - by left.
  - right. by cbn.
  - by destruct (Hne token chat q o a).
Qed.

(** C3, as the specification states it, fails on the code: a first run on
    which [send_poll] times out leaves a state with a date and no
    identifier. *)
Lemma failed_send_breaks_invariant :
  let env := sample_env timeout_service (ymd 2024 1 3) in
  let fs := files (run_script env ∅).1 in
  reachable (fun _ => True) fs
  /\ fs !! "poll.data"%string
     = Some (Pickle (VData (PersistentData_init None None (Some (ymd 2024 1 8)))))
  /\ ~ poll_file all_or_nothing fs.
Proof.
  intros env fs.
  assert (Hfile : fs !! "poll.data"%string
    = Some (Pickle (VData (PersistentData_init None None (Some (ymd 2024 1 8))))))
    by (by vm_compute).
  split; [|split; [exact Hfile|]].
  - apply (reachable_run _ env ∅ (run_script env ∅).1 (run_script env ∅).2).
    + by apply reachable_first.
    + done.
    + apply surjective_pairing.
  - intros [Hnone|(d & Hd & Hinv)].
    + rewrite Hfile in Hnone. discriminate.
    + rewrite Hfile in Hd. injection Hd as <-.
      destruct Hinv as [(_ & _ & H)|(H & _)]; cbn in H.
      * discriminate.
      * by destruct H.
Qed.

(** C3 (amended): in every state the script can leave in poll.data the two
    identifiers are null together, and null when the date is; when no
    [send_poll] timed out in the runs that led there, the three fields are
    null together or non-null together. *)
Theorem stored_state_invariant (fs : gmap string file) :
  (reachable (fun _ => True) fs -> poll_file identifiers_paired fs)
  /\ (reachable send_poll_never_times_out fs -> poll_file all_or_nothing fs).
Proof.
  split.
  - induction 1 as [fs Hnone|env fs w r _ IH _ Hrun]; [by left|].
    apply (run_script_poll_file identifiers_paired env fs w r); [|by eauto using transition_paired|done..].
    by split.
  - induction 1 as [fs Hnone|env fs w r _ IH Hne Hrun]; [by left|].
    apply (run_script_poll_file all_or_nothing env fs w r);
      [by left|by eauto using transition_all_or_nothing|done..].
Qed.

(** The theorem after a first run on Wednesday 2024-01-03 and a second on
    Friday 2024-01-12, every call succeeding: a full state holds after the
    first, the empty state after the second. *)
Lemma stored_state_invariant_witness :
  let env1 := sample_env (sample_service []) (ymd 2024 1 3) in
  let env2 := sample_env (sample_service [vote 7 "poll-1" "Ann" [1]]) (ymd 2024 1 12) in
  let fs1 := files (run_script env1 ∅).1 in
  let fs2 := files (run_script env2 fs1).1 in
  (reachable send_poll_never_times_out fs1 /\ poll_file all_or_nothing fs1
   /\ fs1 !! "poll.data"%string
      = Some (Pickle (VData (PersistentData_init (Some 42) (Some "poll-1"%string)
                               (Some (ymd 2024 1 8))))))
  /\ (reachable send_poll_never_times_out fs2 /\ poll_file all_or_nothing fs2
      /\ fs2 !! "poll.data"%string = Some (Pickle (VData PersistentData_empty))).
Proof.
  intros env1 env2 fs1 fs2.
  assert (H1 : reachable send_poll_never_times_out fs1).
  { apply (reachable_run _ env1 ∅ (run_script env1 ∅).1 (run_script env1 ∅).2).
    - by apply reachable_first.
    - by intros ?????.
    - apply surjective_pairing. }
  assert (H2 : reachable send_poll_never_times_out fs2).
  { apply (reachable_run _ env2 fs1 (run_script env2 fs1).1 (run_script env2 fs1).2).
    - exact H1.
    - by intros ?????.
    - apply surjective_pairing. }
  split; (split; [assumption|split]).
  - by apply (proj2 (stored_state_invariant fs1)).
  - by vm_compute.
  - by apply (proj2 (stored_state_invariant fs2)).
  - by vm_compute.
Defined.

(* ===================================================================== *)
(** ** Further properties: state store and start-up                      *)
(* ===================================================================== *)

(** X1: [load] after [store] returns the value stored, whatever the file
    held before. *)
Theorem load_after_store (v : value) (filename : string) (env : Env) (w : World) :
  exists w1 w2,
    store v filename env w = (w1, Ok tt)
    /\ load filename env w1 = (w2, Ok v)
    /\ files w2 = <[filename := Pickle v]> (files w).
Proof.
  rewrite run_store. eexists _, _. split; [reflexivity|].
  rewrite run_load. cbn. rewrite lookup_insert_eq. done.
Qed.

(** X2: [store] under one file name does not change what [load] returns
    for another. *)
Theorem store_leaves_other_files (v : value) (f g : string) (env : Env) (w : World) :
  f <> g ->
  exists w1, store v f env w = (w1, Ok tt)
    /\ (load g env w1).2 = (load g env w).2
    /\ files w1 !! g = files w !! g.
Proof.
  intros Hne. rewrite run_store. eexists. split; [reflexivity|].
  rewrite !run_load. cbn. by rewrite lookup_insert_ne.
Qed.

Lemma store_leaves_other_files_witness :
  let env := sample_env (sample_service []) (ymd 2024 1 3) in
  let w := fresh_process pending_files in
  exists w1, store (VInt 17) "update.id" env w = (w1, Ok tt)
    /\ (load "poll.data" env w1).2 = Ok (VData pending_data).
Proof.
  intros env w.
  destruct (store_leaves_other_files (VInt 17) "update.id" "poll.data" env w)
    as (w1 & E & Hl & _); [done|].
  exists w1. split; [exact E|]. rewrite Hl. by vm_compute.
Defined.





(** X5: when [BOT_TOKEN] or [GROUP_ID] is missing, the script prints its
    message and exits with status -1 before it reads a file, builds a bot
    or makes a call. *)
Theorem missing_configuration_exits (env : Env) (fs : gmap string file) :
  BOT_TOKEN env = None \/ GROUP_ID env = None ->
  exists w', run_script env fs = (w', Raise (SystemExit (-1)))
    /\ files w' = fs /\ heap w' = ∅ /\ global_bot w' = None
    /\ calls w' = [] /\ log w' = []
    /\ stdout w' = [configuration_message].
Proof.
  intros H. unfold run_script, main. rewrite run_bind. cbn [ask].
  destruct H as [-> | ->]; [|destruct (BOT_TOKEN env)];
    (eexists; split; [reflexivity|done]).
Qed.

Lemma missing_configuration_exits_witness :
  let env := {| today := ymd 2024 1 3; service := sample_service [];
                BOT_TOKEN := Some "token"%string; GROUP_ID := None |} in
  exists w', run_script env pending_files = (w', Raise (SystemExit (-1)))
    /\ files w' = pending_files /\ calls w' = []
    /\ stdout w' = [configuration_message].
Proof.
  intros env.
  destruct (missing_configuration_exits env pending_files)
    as (w' & E & Hf & _ & _ & Hc & _ & Ho); [by right|].
  by exists w'.
Defined.

(* ===================================================================== *)
(** ** Further properties: chat gateway                                  *)
(* ===================================================================== *)

(** X6: [send_message] makes one call with the bot's own token and chat
    and touches nothing else; a timeout of that call is swallowed, every
    other exception is passed on. *)
Theorem send_message_swallows_timeout (self : nat) (b : BadmintonBot)
    (message : string) (env : Env) (w : World) :
  heap w !! self = Some b ->
  exists w' r, send_message self message env w = (w', r)
    /\ calls w' = calls w ++ [telegram.SendMessage (bot b) (group_id b) message]
    /\ files w' = files w /\ heap w' = heap w /\ stdout w' = stdout w
    /\ r = match telegram.send_message (service env) (bot b) (group_id b) message with
           | Ok _ => Ok tt
           | Raise e => if bool_decide (e = SocketTimeout) then Ok tt else Raise e
           end.
Proof.
  intros Hs. unfold send_message.
  rewrite run_bind, (run_deref _ b) by done.
  unfold try_except, bot_send_message, logging_info, mbind, M_bind, ask, lift, modify.
  cbn.
  destruct (telegram.send_message _ _ _ _) as [[]|e];
    [|destruct (bool_decide (e = SocketTimeout))];
    (eexists _, _; split; [reflexivity|done]).
Qed.

Lemma send_message_swallows_timeout_witness :
  let svc := {| telegram.send_message := fun _ _ _ => Raise SocketTimeout;
                telegram.send_poll := fun _ _ _ _ _ => Ok sample_message;
                telegram.stop_poll := fun _ _ _ => Ok tt;
                telegram.get_updates := fun _ _ => Ok [] |} in
  let w := sample_world ∅ (VData PersistentData_empty) in
  exists w', send_message 0 "Hallo" (sample_env svc (ymd 2024 1 3)) w = (w', Ok tt)
    /\ calls w' = [telegram.SendMessage "token" "group" "Hallo"].
Proof.
  intros svc w.
  destruct (send_message_swallows_timeout 0 (sample_bot (VData PersistentData_empty))
              "Hallo" (sample_env svc (ymd 2024 1 3)) w)
    as (w' & r & E & Hc & _ & _ & _ & Hr); [by vm_compute|].
  exists w'. split; [by rewrite E, Hr|exact Hc].
Defined.

(** X7: [send_poll] makes one non-anonymous poll call, with the options
    Ja and Nein when none are given, and touches nothing else. It returns
    the two identifiers of the message sent, or [(None, None)] on a
    timeout, so the identifiers are present together or absent together;
    every other exception is passed on. *)
Theorem send_poll_both_or_neither (self : nat) (b : BadmintonBot)
    (q : string) (options : option (list string)) (env : Env) (w : World) :
  heap w !! self = Some b ->
  let opts := default ["Ja"; "Nein"]%string options in
  exists w' r, send_poll self q options env w = (w', r)
    /\ calls w' = calls w ++ [telegram.SendPoll (bot b) (group_id b) q opts false]
    /\ files w' = files w /\ heap w' = heap w /\ stdout w' = stdout w
    /\ r = match telegram.send_poll (service env) (bot b) (group_id b) q opts false with
           | Ok m => Ok (Some (telegram.message_id m),
                         Some (telegram.id (telegram.poll m)))
           | Raise e =>
               if bool_decide (e = SocketTimeout) then Ok (None, None) else Raise e
           end
    /\ (forall message_id the_poll_id,
          r = Ok (message_id, the_poll_id) -> (message_id = None <-> the_poll_id = None)).
Proof.
  intros Hs opts. rewrite (run_send_poll _ b) by done.
  change (default default_options options) with opts.
  destruct (telegram.send_poll _ _ _ _ _ _) as [m|e];
    [|destruct (bool_decide (e = SocketTimeout))];
    (eexists _, _; split; [reflexivity|]; cbn; repeat split; try done;
     intros; simplify_eq; done).
Qed.

Lemma send_poll_both_or_neither_witness :
  let w := sample_world ∅ (VData PersistentData_empty) in
  exists w', send_poll 0 "Abfrage" None (sample_env (sample_service []) (ymd 2024 1 3)) w
             = (w', Ok (Some 42, Some "poll-1"%string))
    /\ calls w' = [telegram.SendPoll "token" "group" "Abfrage" ["Ja"; "Nein"]%string false].
Proof.
  intros w.
  destruct (send_poll_both_or_neither 0 (sample_bot (VData PersistentData_empty))
              "Abfrage" None (sample_env (sample_service []) (ymd 2024 1 3)) w)
    as (w' & r & E & Hc & _ & _ & _ & Hr & _); [by vm_compute|].
  exists w'. split; [by rewrite E, Hr|exact Hc].
Defined.

(** X8: [get_updates] makes one call, without offset when [update_id] is
    [None] and with [update_id] as offset otherwise, and touches nothing
    else. It returns the updates of the service, or the empty list on a
    timeout; it never raises the timeout, and passes every other
    exception on. *)
Theorem get_updates_swallows_timeout (self : nat) (b : BadmintonBot)
    (update_id : value) (env : Env) (w : World) :
  heap w !! self = Some b ->
  let offset := match update_id with VNone => None | v => Some v end in
  exists w' r, get_updates self update_id env w = (w', r)
    /\ calls w' = calls w ++ [telegram.GetUpdates (bot b) offset]
    /\ files w' = files w /\ heap w' = heap w /\ stdout w' = stdout w
    /\ r = match telegram.get_updates (service env) (bot b) offset with
           | Ok us => Ok us
           | Raise e => if bool_decide (e = SocketTimeout) then Ok [] else Raise e
           end
    /\ r <> Raise SocketTimeout.
Proof.
  intros Hs offset.
  destruct (run_get_updates_fetched self b update_id env w Hs)
    as (w' & E & [Hf Hh] & Ho & _ & Hc).
  exists w', (fetched env (bot b) update_id).
  split; [exact E|]. split; [exact Hc|]. repeat split; [done..|].
  unfold fetched. change (offset_of update_id) with offset.
  destruct (telegram.get_updates _ _ _) as [us|e]; [done|].
  destruct (bool_decide (e = SocketTimeout)) eqn:Ee; [done|].
  apply bool_decide_eq_false_1 in Ee. congruence.
Qed.

Lemma get_updates_swallows_timeout_witness :
  let w := sample_world ∅ (VData PersistentData_empty) in
  exists w', get_updates 0 VNone (sample_env timeout_service (ymd 2024 1 3)) w = (w', Ok [])
    /\ calls w' = [telegram.GetUpdates "token" None].
Proof.
  intros w.
  destruct (get_updates_swallows_timeout 0 (sample_bot (VData PersistentData_empty))
              VNone (sample_env timeout_service (ymd 2024 1 3)) w)
    as (w' & r & E & Hc & _ & _ & _ & Hr & _); [by vm_compute|].
  exists w'. split; [by rewrite E, Hr|exact Hc].
Defined.

Lemma py_index_last {A} (l : list A) : py_index l (-1) = last l.
Proof.
  unfold py_index. rewrite bool_decide_eq_false_2 by lia.
  destruct l as [|x l].
  - by rewrite bool_decide_eq_false_2 by (cbn; lia).
  - rewrite bool_decide_eq_true_2 by (cbn [length]; lia).
    rewrite last_lookup. f_equal. cbn [length]. lia.
Qed.

(** X9: when the fetch returns at least one update,
    [get_latest_updates] stores the id of the last one in update.id and
    changes no other file; that id itself is the offset of the next
    fetch. *)
Theorem get_latest_updates_advances (self : nat) (b : BadmintonBot)
    (us : list telegram.Update) (u : telegram.Update) (env : Env) (w : World) :
  heap w !! self = Some b ->
  files w !! "update.id"%string <> Some Garbage ->
  telegram.get_updates (service env) (bot b) (offset_of (stored_cursor w)) = Ok us ->
  last us = Some u ->
  exists w', get_latest_updates self env w = (w', Ok tt)
    /\ files w' = <["update.id"%string := Pickle (VInt (telegram.update_id u))]> (files w)
    /\ calls w' = calls w ++ [telegram.GetUpdates (bot b) (offset_of (stored_cursor w))]
    /\ offset_of (stored_cursor w') = Some (VInt (telegram.update_id u)).
Proof.
  intros Hs Hg Hfetch Hlast. unfold get_latest_updates.
  rewrite run_bind, run_load.
  assert (Hload : match files w !! "update.id"%string with
                  | None => Ok (VDict [])
                  | Some Garbage => Raise UnpicklingError
                  | Some (Pickle v) => Ok v
                  end = Ok (stored_cursor w)).
  { unfold stored_cursor. destruct (files w !! "update.id"%string) as [[v|]|]; done. }
  rewrite Hload.
  destruct (run_get_updates_fetched self b (stored_cursor w) env
              (logged "Loading data from %s" [ArgStr "update.id"%string] w))
    as (w1 & E & [Hf Hh] & _ & _ & Hc); [done|].
  rewrite run_bind, E. unfold fetched. rewrite Hfetch.
  rewrite run_bind. unfold index. rewrite py_index_last, Hlast, run_ret, run_store.
  eexists. split; [reflexivity|]. cbn. rewrite Hf, Hc. cbn.
  repeat split. unfold stored_cursor. cbn. by rewrite lookup_insert_eq.
Qed.

Lemma get_latest_updates_advances_witness :
  let us := [vote 7 "poll-1" "Ann" [0]; vote 9 "poll-1" "Bob" [1]] in
  let w := sample_world {[ "update.id"%string := Pickle (VInt 5) ]} (VData pending_data) in
  exists w', get_latest_updates 0 (sample_env (sample_service us) (ymd 2024 1 3)) w
             = (w', Ok tt)
    /\ files w' !! "update.id"%string = Some (Pickle (VInt 9))
    /\ calls w' = [telegram.GetUpdates "token" (Some (VInt 5))].
Proof.
  intros us w.
  destruct (get_latest_updates_advances 0 (sample_bot (VData pending_data)) us
              (vote 9 "poll-1" "Bob" [1])
              (sample_env (sample_service us) (ymd 2024 1 3)) w)
    as (w' & E & Hf & Hc & _); [by vm_compute|by vm_compute|reflexivity|reflexivity|].
  exists w'. split; [exact E|]. split.
  - rewrite Hf. apply lookup_insert_eq.
  - rewrite Hc. by vm_compute.
Defined.

(** X10: [get_latest_updates] always passes the value it loaded as the
    offset of its one call; when update.id was never written that value
    is the empty dict [load] returns, not [None], so the fetch without an
    offset is made only if the file holds a pickled [None]. *)
Theorem get_latest_updates_offset (self : nat) (b : BadmintonBot) (env : Env) (w : World) :
  heap w !! self = Some b ->
  files w !! "update.id"%string <> Some Garbage ->
  exists w' r offset, get_latest_updates self env w = (w', r)
    /\ calls w' = calls w ++ [telegram.GetUpdates (bot b) offset]
    /\ (files w !! "update.id"%string = None -> offset = Some (VDict []))
    /\ (offset = None <-> files w !! "update.id"%string = Some (Pickle VNone)).
Proof.
  intros Hs Hg. unfold get_latest_updates.
  rewrite run_bind, run_load.
  assert (Hload : match files w !! "update.id"%string with
                  | None => Ok (VDict [])
                  | Some Garbage => Raise UnpicklingError
                  | Some (Pickle v) => Ok v
                  end = Ok (stored_cursor w)).
  { unfold stored_cursor. destruct (files w !! "update.id"%string) as [[v|]|]; done. }
  rewrite Hload.
  destruct (run_get_updates_fetched self b (stored_cursor w) env
              (logged "Loading data from %s" [ArgStr "update.id"%string] w))
    as (w1 & E & _ & _ & _ & Hc); [done|].
  rewrite run_bind, E.
  assert (Hoff : (files w !! "update.id"%string = None ->
                  offset_of (stored_cursor w) = Some (VDict []))
                 /\ (offset_of (stored_cursor w) = None
                     <-> files w !! "update.id"%string = Some (Pickle VNone))).
  { unfold stored_cursor.
    destruct (files w !! "update.id"%string) as [[[]|]|]; cbn; naive_solver. }
  destruct (fetched env (bot b) (stored_cursor w)) as [us|e].
  - rewrite run_bind. unfold index.
    destruct (py_index us (-1)) as [u|].
    + rewrite run_ret, run_store. eexists _, _, _. split; [reflexivity|].
      cbn. rewrite Hc. cbn. split; [reflexivity|exact Hoff].
    + eexists _, _, _. split; [reflexivity|]. rewrite Hc. cbn.
      split; [reflexivity|exact Hoff].
  - eexists _, _, _. split; [reflexivity|]. rewrite Hc. cbn.
    split; [reflexivity|exact Hoff].
Qed.

Lemma get_latest_updates_offset_witness :
  let w := sample_world ∅ (VData pending_data) in
  exists w' r, get_latest_updates 0 (sample_env (sample_service []) (ymd 2024 1 3)) w
               = (w', r)
    /\ calls w' = [telegram.GetUpdates "token" (Some (VDict []))].
Proof.
  intros w.
  destruct (get_latest_updates_offset 0 (sample_bot (VData pending_data))
              (sample_env (sample_service []) (ymd 2024 1 3)) w)
    as (w' & r & offset & E & Hc & Hnone & _); [by vm_compute|by vm_compute|].
  exists w', r. split; [exact E|]. rewrite Hc, Hnone; by vm_compute.
Defined.

(* ===================================================================== *)
(** ** Further properties: the evaluate transition                       *)
(* ===================================================================== *)

Lemma py_index_readable i :
  -2 <= i < 2 -> py_index default_options i = Some (option_text i).
Proof.
  intros H.
  assert (Hi : i = -2 \/ i = -1 \/ i = 0 \/ i = 1) by lia.
  destruct Hi as [-> | [-> | [-> | ->]]]; reflexivity.
Qed.

Lemma tally_no_match the_poll_id options u :
  matching_answer the_poll_id u = None -> tally the_poll_id options u = Ok [].
Proof.
  unfold matching_answer, tally.
  destruct (telegram.poll_answer u) as [pa|]; [|done].
  by destruct (bool_decide _).
Qed.

Lemma tally_readable the_poll_id u pa :
  matching_answer the_poll_id u = Some pa -> readable_vote pa ->
  tally the_poll_id default_options u = Ok [printed_line pa].
Proof.
  unfold matching_answer, tally, printed_line.
  destruct (telegram.poll_answer u) as [pa'|]; [|done].
  destruct (bool_decide _); [|done].
  intros [= ->] (i & rest & Hids & Hi). rewrite Hids.
  by rewrite py_index_head, py_index_readable.
Qed.

Lemma tally_all_readable the_poll_id us :
  Forall readable_vote (omap (matching_answer the_poll_id) us) ->
  tally_all the_poll_id default_options us = (printed_lines the_poll_id us, Ok tt).
Proof.
  unfold printed_lines. induction us as [|u us IH]; [done|].
  cbn [omap list_omap tally_all].
  destruct (matching_answer the_poll_id u) as [pa|] eqn:E.
  - intros H. apply Forall_cons in H as [Hpa H].
    rewrite (tally_readable _ _ pa), (IH H) by done. done.
  - intros H. rewrite tally_no_match, (IH H) by done. done.
Qed.

(** The evaluate transition once the poll is stopped and the fetch has
    handed back [us] with every vote for the stored poll readable. *)
Lemma run_manage_evaluate_readable self b d pd us env w :
  heap w !! self = Some b -> data b = VData d ->
  polling_date d = Some pd -> valid pd ->
  today env = trigger_date pd ->
  telegram.stop_poll (service env) (bot b) (group_id b) (poll_message_id d) = Ok tt ->
  fetched env (bot b) (VInt (-100)) = Ok us ->
  Forall readable_vote (omap (matching_answer (poll_id d)) us) ->
  exists w', manage_badminton_poll self env w = (w', Ok tt)
    /\ stdout w' = stdout w ++ printed_lines (poll_id d) us
    /\ files w' = <["poll.data"%string := Pickle (VData PersistentData_empty)]> (files w)
    /\ heap w' = <[self := with_data b (VData PersistentData_empty)]> (heap w)
    /\ calls w' = calls w ++ [telegram.StopPoll (bot b) (group_id b) (poll_message_id d);
                              telegram.GetUpdates (bot b) (Some (VInt (-100)))].
Proof.
  intros Hs Hd Hp Hv Ht Hstop Hfetch Hus.
  destruct (run_manage_evaluate self b d pd env w) as (w' & r & E & Hrest);
    [done|done|done|by apply friday_in_range|done|].
  rewrite Hstop in Hrest. destruct Hrest as (Hc & Ho & Hr).
  assert (Hev : evaluation env b (poll_id d) = (printed_lines (poll_id d) us, Ok tt)).
  { unfold evaluation. rewrite Hfetch. by apply tally_all_readable. }
  rewrite Hev in Ho, Hr. cbn in Ho, Hr. destruct Hr as (-> & Hf & Hh).
  by exists w'.
Qed.

(** X11: on the trigger date, when [stop_poll] succeeds and every vote
    for the stored poll among the fetched updates is readable, the
    controller prints one line per such vote, in the order of the
    updates, ignores every other update, and resets the state to the
    empty one in memory and on disk. *)
Theorem evaluate_prints_and_resets (self : nat) (b : BadmintonBot)
    (d : PersistentData) (pd : date) (us : list telegram.Update)
    (env : Env) (w : World) :
  heap w !! self = Some b -> data b = VData d ->
  polling_date d = Some pd -> valid pd ->
  today env = trigger_date pd ->
  telegram.stop_poll (service env) (bot b) (group_id b) (poll_message_id d) = Ok tt ->
  telegram.get_updates (service env) (bot b) (Some (VInt (-100))) = Ok us ->
  Forall readable_vote (omap (matching_answer (poll_id d)) us) ->
  exists w', manage_badminton_poll self env w = (w', Ok tt)
    /\ stdout w' = stdout w ++ printed_lines (poll_id d) us
    /\ length (printed_lines (poll_id d) us)
       = length (omap (matching_answer (poll_id d)) us)
    /\ files w' !! "poll.data"%string = Some (Pickle (VData PersistentData_empty))
    /\ (data <$> heap w' !! self) = Some (VData PersistentData_empty)
    /\ calls w' = calls w ++ [telegram.StopPoll (bot b) (group_id b) (poll_message_id d);
                              telegram.GetUpdates (bot b) (Some (VInt (-100)))].
Proof.
  intros Hs Hd Hp Hv Ht Hstop Hfetch Hus.
  destruct (run_manage_evaluate_readable self b d pd us env w)
    as (w' & E & Ho & Hf & Hh & Hc); [done..| |done|].
  { unfold fetched. cbn [offset_of]. by rewrite Hfetch. }
  exists w'. split; [exact E|]. split; [exact Ho|].
  split; [unfold printed_lines; by rewrite length_fmap|].
  split; [by rewrite Hf, lookup_insert_eq|].
  split; [by rewrite Hh, lookup_insert_eq|exact Hc].
Qed.

Lemma evaluate_prints_and_resets_witness :
  let us := [vote 7 "poll-1" "Ann" [0]; vote 8 "other" "Eve" [];
             {| telegram.update_id := 9; telegram.poll_answer := None |};
             vote 10 "poll-1" "Bob" [1]] in
  let env := sample_env (sample_service us) (ymd 2024 1 12) in
  let w := sample_world pending_files (VData pending_data) in
  exists w', manage_badminton_poll 0 env w = (w', Ok tt)
    /\ stdout w' = ["User Ann None voted Ja"; "User Bob None voted Nein"]%string
    /\ files w' !! "poll.data"%string = Some (Pickle (VData PersistentData_empty)).
Proof.
  intros us env w.
  destruct (evaluate_prints_and_resets 0 (sample_bot (VData pending_data))
              pending_data (ymd 2024 1 8) us env w)
    as (w' & E & Ho & _ & Hf & _).
  - by vm_compute.
  - reflexivity.
  - reflexivity.
  - by vm_compute.
  - by vm_compute.
  - reflexivity.
  - reflexivity.
  - repeat constructor; eexists _, _; (split; [reflexivity|lia]).
  - exists w'. split; [exact E|]. split; [|exact Hf]. rewrite Ho. by vm_compute.
Defined.

(** X12: when the fetch of the evaluate transition times out, the
    controller goes on as with no update: it prints nothing and still
    resets the state, so the votes of the stopped poll are not tallied. *)
Theorem evaluate_resets_on_fetch_timeout (self : nat) (b : BadmintonBot)
    (d : PersistentData) (pd : date) (env : Env) (w : World) :
  heap w !! self = Some b -> data b = VData d ->
  polling_date d = Some pd -> valid pd ->
  today env = trigger_date pd ->
  telegram.stop_poll (service env) (bot b) (group_id b) (poll_message_id d) = Ok tt ->
  telegram.get_updates (service env) (bot b) (Some (VInt (-100))) = Raise SocketTimeout ->
  exists w', manage_badminton_poll self env w = (w', Ok tt)
    /\ stdout w' = stdout w
    /\ files w' !! "poll.data"%string = Some (Pickle (VData PersistentData_empty))
    /\ calls w' = calls w ++ [telegram.StopPoll (bot b) (group_id b) (poll_message_id d);
                              telegram.GetUpdates (bot b) (Some (VInt (-100)))].
Proof.
  intros Hs Hd Hp Hv Ht Hstop Hfetch.
  destruct (run_manage_evaluate_readable self b d pd [] env w)
    as (w' & E & Ho & Hf & _ & Hc); [done..| |by constructor|].
  { unfold fetched. cbn [offset_of]. by rewrite Hfetch. }
  exists w'. split; [exact E|]. split; [by rewrite Ho, app_nil_r|].
  split; [by rewrite Hf, lookup_insert_eq|exact Hc].
Qed.

Lemma evaluate_resets_on_fetch_timeout_witness :
  let env := sample_env timeout_service (ymd 2024 1 12) in
  let w := sample_world pending_files (VData pending_data) in
  exists w', manage_badminton_poll 0 env w = (w', Ok tt)
    /\ stdout w' = []
    /\ files w' !! "poll.data"%string = Some (Pickle (VData PersistentData_empty)).
Proof.
  intros env w.
  destruct (evaluate_resets_on_fetch_timeout 0 (sample_bot (VData pending_data))
              pending_data (ymd 2024 1 8) env w)
    as (w' & E & Ho & Hf & _);
    [by vm_compute|reflexivity|reflexivity|by vm_compute|by vm_compute
    |reflexivity|reflexivity|].
  by exists w'.
Defined.

Lemma matching_answer_none us : omap (matching_answer None) us = [].
Proof.
  induction us as [|u us IH]; [done|]. cbn [omap list_omap].
  unfold matching_answer at 1.
  destruct (telegram.poll_answer u) as [pa|]; [|done].
  by rewrite bool_decide_eq_false_2.
Qed.

(** X13: a state left by a failed creation (a date, no identifier) is
    evaluated on its trigger date like any other: [stop_poll] is called
    with [None] as message id, and if that call and the fetch succeed, no
    line is printed whatever votes were fetched, and the state is
    reset. *)
Theorem evaluate_after_failed_creation (self : nat) (b : BadmintonBot)
    (pd : date) (us : list telegram.Update) (env : Env) (w : World) :
  heap w !! self = Some b ->
  data b = VData (PersistentData_init None None (Some pd)) -> valid pd ->
  today env = trigger_date pd ->
  telegram.stop_poll (service env) (bot b) (group_id b) None = Ok tt ->
  telegram.get_updates (service env) (bot b) (Some (VInt (-100))) = Ok us ->
  exists w', manage_badminton_poll self env w = (w', Ok tt)
    /\ stdout w' = stdout w
    /\ files w' !! "poll.data"%string = Some (Pickle (VData PersistentData_empty))
    /\ calls w' = calls w ++ [telegram.StopPoll (bot b) (group_id b) None;
                              telegram.GetUpdates (bot b) (Some (VInt (-100)))].
Proof.
  intros Hs Hd Hv Ht Hstop Hfetch.
  destruct (run_manage_evaluate_readable self b
              (PersistentData_init None None (Some pd)) pd us env w)
    as (w' & E & Ho & Hf & _ & Hc); [done..| | |].
  { unfold fetched. cbn [offset_of]. by rewrite Hfetch. }
  { cbn [poll_id PersistentData_init]. rewrite matching_answer_none. constructor. }
  exists w'. split; [exact E|].
  unfold printed_lines in Ho. cbn [poll_id PersistentData_init] in Ho.
  rewrite matching_answer_none in Ho. cbn in Ho. rewrite app_nil_r in Ho.
  split; [exact Ho|]. split; [by rewrite Hf, lookup_insert_eq|exact Hc].
Qed.

Lemma evaluate_after_failed_creation_witness :
  let us := [vote 7 "poll-1" "Ann" [0]] in
  let env := sample_env (sample_service us) (ymd 2024 1 12) in
  let v := VData (PersistentData_init None None (Some (ymd 2024 1 8))) in
  let w := sample_world {[ "poll.data"%string := Pickle v ]} v in
  exists w', manage_badminton_poll 0 env w = (w', Ok tt)
    /\ stdout w' = []
    /\ calls w' = [telegram.StopPoll "token" "group" None;
                   telegram.GetUpdates "token" (Some (VInt (-100)))].
Proof.
  intros us env v w.
  destruct (evaluate_after_failed_creation 0 (sample_bot v) (ymd 2024 1 8) us env w)
    as (w' & E & Ho & _ & Hc);
    [by vm_compute|reflexivity|by vm_compute|by vm_compute|reflexivity|reflexivity|].
  exists w'. split; [exact E|]. split; [exact Ho|]. rewrite Hc. by vm_compute.
Defined.

(* ===================================================================== *)
(** ** Further properties: whole runs                                    *)
(* ===================================================================== *)

(** What one controller step can do, whatever the surroundings: the calls
    it adds, and the file it writes when, and only when, it ends
    normally. *)
Lemma manage_outcome self g b bg d env w w' r :
  heap w !! self = Some b -> data b = VData d ->
  global_bot w = Some g -> heap w !! g = Some bg ->
  manage_badminton_poll self env w = (w', r) ->
  (exists c, calls w' = calls w ++ c /\ run_calls c)
  /\ ((exists e, r = Raise e) /\ files w' = files w
      \/ r = Ok tt
         /\ exists d', files w' = <["poll.data"%string := Pickle (VData d')]> (files w)).
Proof.
  intros Hs Hd Hg Hbg Hrun.
  destruct (polling_date d) as [pd|] eqn:Hp.
  - destruct (decide (MINORDINAL <= toordinal pd + (FRIDAY - weekday pd) <= MAXORDINAL))
      as [Hr|Hr].
    + destruct (decide (today env = trigger_date pd)) as [Ht|Ht].
      * destruct (run_manage_evaluate self b d pd env w) as (w1 & r1 & E & Hrest);
          [done..|].
        rewrite Hrun in E. injection E as <- <-.
        destruct (telegram.stop_poll _ _ _ _) as [[]|e].
        -- destruct Hrest as (Hc & _ & Hrest). split.
           { eexists. split; [exact Hc|]. apply run_calls_evaluate. }
           destruct (evaluation env b (poll_id d)).2 as [[]|e].
           ++ destruct Hrest as (-> & Hf & _). right. split; [done|]. by eexists.
           ++ destruct Hrest as (-> & Hf & _). left. split; [by eexists|done].
        -- destruct Hrest as (-> & [Hf _] & Hc & _). split.
           { eexists. split; [exact Hc|]. apply run_calls_stop. }
           left. split; [by eexists|done].
      * destruct (run_manage_noop self b d pd env w) as (w1 & E & Hc & _ & _ & Hf);
          [done..|].
        rewrite Hrun in E. injection E as -> ->. split.
        { exists []. rewrite app_nil_r. split; [done|]. apply run_calls_none. }
        right. split; [done|]. by eexists.
    + rewrite (run_manage_overflow self b d pd) in Hrun by done.
      injection Hrun as <- <-. split.
      { exists []. rewrite app_nil_r. split; [done|]. apply run_calls_none. }
      left. split; [by eexists|done].
  - destruct (decide (MINORDINAL <= toordinal (today env)
                        + (MONDAY - weekday (today env)) <= MAXORDINAL)) as [Hr|Hr].
    + destruct (run_manage_create self b d g bg env w) as (w1 & r1 & E & Hc & _ & Hrest);
        [done..|].
      rewrite Hrun in E. injection E as <- <-. split.
      { eexists. split; [exact Hc|]. apply run_calls_create. }
      destruct (telegram.send_poll _ _ _ _ _ _) as [m|e].
      * destruct Hrest as (-> & Hf & _). right. split; [done|]. by eexists.
      * destruct (bool_decide (e = SocketTimeout)).
        -- destruct Hrest as (-> & Hf & _). right. split; [done|]. by eexists.
        -- destruct Hrest as (-> & Hf & _). left. split; [by eexists|done].
    + rewrite (run_manage_create_overflow self b d) in Hrun by done.
      injection Hrun as <- <-. split.
      { exists []. rewrite app_nil_r. split; [done|]. apply run_calls_none. }
      left. split; [by eexists|done].
Qed.

Lemma run_script_garbage env fs token group :
  BOT_TOKEN env = Some token -> GROUP_ID env = Some group ->
  fs !! "poll.data"%string = Some Garbage ->
  exists w, run_script env fs = (w, Raise UnpicklingError)
    /\ files w = fs /\ calls w = [] /\ stdout w = [].
Proof.
  intros Ht Hg Hfile. unfold run_script, main.
  rewrite run_bind. cbn [ask]. rewrite Ht, Hg.
  destruct (run_init_garbage token group env (fresh_process fs))
    as (w1 & E & Hf & Hc & Ho); [done|].
  rewrite run_bind, E. by exists w1.
Qed.

(** What one run of the script can do, whatever the files and the
    surroundings. *)
Lemma run_script_outcome env fs w r :
  run_script env fs = (w, r) ->
  run_calls (calls w)
  /\ (files w = fs
      \/ exists d, files w = <["poll.data"%string := Pickle (VData d)]> fs)
  /\ (forall d, fs !! "poll.data"%string = Some (Pickle (VData d)) ->
      (exists e, r = Raise e) -> files w = fs).
Proof.
  intros Hrun.
  destruct (BOT_TOKEN env) as [token|] eqn:Htok; cycle 1.
  { destruct (run_script_no_configuration env fs) as (w1 & E & Hf & Hc); [by left|].
    rewrite Hrun in E. injection E as -> ->. rewrite Hc.
    split; [apply run_calls_none|]. split; [by left|done]. }
  destruct (GROUP_ID env) as [group|] eqn:Hgrp; cycle 1.
  { destruct (run_script_no_configuration env fs) as (w1 & E & Hf & Hc); [by right|].
    rewrite Hrun in E. injection E as -> ->. rewrite Hc.
    split; [apply run_calls_none|]. split; [by left|done]. }
  assert (Hcase : fs !! "poll.data"%string = Some Garbage
                  \/ fs !! "poll.data"%string <> Some Garbage).
  { destruct (fs !! "poll.data"%string) as [[v|]|]; [right|left|right]; done. }
  destruct Hcase as [Hgarbage|Hgarbage].
  { destruct (run_script_garbage env fs token group) as (w1 & E & Hf & Hc & _); [done..|].
    rewrite Hrun in E. injection E as -> ->. rewrite Hc.
    split; [apply run_calls_none|]. split; [by left|done]. }
  destruct (run_script_manage env fs token group) as (w0 & self & E & Hf & Hs & Hg & Hc & _);
    [done..|].
  rewrite Hrun in E. symmetry in E.
  assert (Hinit : initial_files fs = fs
                  \/ initial_files fs
                     = <["poll.data"%string := Pickle (VData PersistentData_empty)]> fs).
  { unfold initial_files. destruct (fs !! "poll.data"%string) as [[v|]|]; [|by right..].
    destruct (is_dict v); [by right|by left]. }
  assert (Hkeep : forall d, fs !! "poll.data"%string = Some (Pickle (VData d)) ->
                            initial_files fs = fs).
  { intros d Hd. by destruct (initial_pending fs d Hd). }
  destruct (initial_value fs) as [| n | items | d0] eqn:Hv.
  1-3: (rewrite (run_manage_no_data self _ env w0 Hs) in E by done;
        injection E as <- <-; rewrite Hc;
        split; [apply run_calls_none|]; rewrite Hf;
        split; [destruct Hinit as [-> | ->]; [by left|right; by eexists]
               |intros d Hd _; by apply (Hkeep d)]).
  destruct (manage_outcome self self _ _ d0 env w0 w r Hs eq_refl Hg Hs E)
    as [(c & Hcalls & Hshape) Hfiles].
  rewrite Hc in Hcalls. cbn in Hcalls. rewrite Hcalls.
  split; [exact Hshape|]. rewrite Hf in Hfiles. split.
  - destruct Hfiles as [[_ ->]|(_ & d' & ->)].
    + destruct Hinit as [-> | ->]; [by left|by right; eexists].
    + right. exists d'. destruct Hinit as [-> | ->]; [done|by rewrite insert_insert_eq].
  - intros d Hd [e ->]. destruct Hfiles as [[_ ->]|(Hr & _)]; [|done].
    by apply (Hkeep d).
Qed.

(** X14: in no run does the script send a plain message, make more than
    one call that changes the chat, or fetch updates before it has
    stopped a poll: the calls of a run are none, one [send_poll] with the
    options Ja and Nein, one [stop_poll], or one [stop_poll] followed by
    one fetch with offset -100. *)
Theorem run_makes_known_calls (env : Env) (fs : gmap string file) :
  run_calls (calls (run_script env fs).1).
Proof.
  destruct (run_script env fs) as [w r] eqn:E.
  by destruct (run_script_outcome env fs w r E) as (H & _).
Qed.

(** X15: a run changes no file but poll.data; update.id in particular is
    neither advanced nor reset by the controller. *)
Theorem run_changes_only_poll_data (env : Env) (fs : gmap string file) (f : string) :
  f <> "poll.data"%string ->
  files (run_script env fs).1 !! f = fs !! f.
Proof.
  intros Hne. destruct (run_script env fs) as [w r] eqn:E.
  destruct (run_script_outcome env fs w r E) as (_ & [Hf|(d & Hf)] & _);
    cbn [fst]; rewrite Hf; [done|]. by rewrite lookup_insert_ne.
Qed.

Lemma run_changes_only_poll_data_witness :
  let env := sample_env (sample_service []) (ymd 2024 1 3) in
  let fs : gmap string file := {[ "update.id"%string := Pickle (VInt 5) ]} in
  files (run_script env fs).1 !! "update.id"%string = Some (Pickle (VInt 5)).
Proof.
  intros env fs.
  rewrite (run_changes_only_poll_data env fs "update.id") by done.
  by vm_compute.
Defined.

(** X16: a run that ends with an exception, whichever it is, leaves the
    files as they were when poll.data held a [PersistentData]: the stored
    state is written only by a controller step that ends normally. *)
Theorem failing_run_keeps_files (env : Env) (fs : gmap string file)
    (d : PersistentData) (w : World) (e : exn) :
  fs !! "poll.data"%string = Some (Pickle (VData d)) ->
  run_script env fs = (w, Raise e) ->
  files w = fs.
Proof.
  intros Hd E.
  destruct (run_script_outcome env fs w (Raise e) E) as (_ & _ & H).
  apply (H d Hd). by eexists.
Qed.

Lemma failing_run_keeps_files_witness :
  let us := [vote 7 "poll-1" "Ann" [5]] in
  let env := sample_env (sample_service us) (ymd 2024 1 12) in
  (run_script env pending_files).2 = Raise IndexError
  /\ files (run_script env pending_files).1 = pending_files.
Proof.
  intros us env.
  assert (E : (run_script env pending_files).2 = Raise IndexError) by (by vm_compute).
  split; [exact E|].
  apply (failing_run_keeps_files env pending_files pending_data _ IndexError);
    [by vm_compute|].
  rewrite <- E. apply surjective_pairing.
Defined.

(** A run in state S0 with next Monday representable. *)
Lemma run_script_create env fs token group d0 :
  BOT_TOKEN env = Some token -> GROUP_ID env = Some group ->
  fs !! "poll.data"%string <> Some Garbage ->
  initial_value fs = VData d0 -> polling_date d0 = None ->
  MINORDINAL <= toordinal (today env) + (MONDAY - weekday (today env)) <= MAXORDINAL ->
  exists w r, run_script env fs = (w, r)
    /\ calls w = [telegram.SendPoll token group (question env) default_options false]
    /\ stdout w = []
    /\ match telegram.send_poll (service env) token group (question env)
               default_options false with
       | Ok m =>
           r = Ok tt
           /\ files w = <["poll.data"%string := Pickle (VData
                (PersistentData_init (Some (telegram.message_id m))
                   (Some (telegram.id (telegram.poll m))) (Some (target_monday env))))]>
                (initial_files fs)
       | Raise e =>
           if bool_decide (e = SocketTimeout)
           then r = Ok tt
                /\ files w = <["poll.data"%string := Pickle (VData
                     (PersistentData_init None None (Some (target_monday env))))]>
                     (initial_files fs)
           else r = Raise e /\ files w = initial_files fs
       end.
Proof.
  intros Ht Hg Hfile Hv Hp Hr.
  destruct (run_script_manage env fs token group) as (w0 & self & E & Hf & Hs & Hgl & Hc & Ho);
    [done..|].
  rewrite Hv in Hs.
  destruct (run_manage_create self _ d0 self _ env w0 Hs eq_refl Hp Hr Hgl Hs)
    as (w & r & E' & Hc' & Ho' & Hrest).
  cbn [bot group_id] in Hc', Hrest.
  exists w, r. rewrite E, E', Hc', Hc, Ho', Ho. repeat split.
  destruct (telegram.send_poll _ _ _ _ _ _) as [m|e].
  - destruct Hrest as (-> & Hf' & _). by rewrite Hf', Hf.
  - destruct (bool_decide (e = SocketTimeout)).
    + destruct Hrest as (-> & Hf' & _). by rewrite Hf', Hf.
    + destruct Hrest as (-> & Hf' & _). by rewrite Hf', Hf.
Qed.



(** X17: a first run (poll.data never written) on which [send_poll]
    succeeds makes that one call, asking "Abfrage" followed by the date of
    the Monday strictly after today, prints nothing, and leaves in
    poll.data the two identifiers of the message and that Monday. *)
Theorem first_run_creates_poll (env : Env) (fs : gmap string file)
    (token group : string) (m : telegram.Message) :
  BOT_TOKEN env = Some token -> GROUP_ID env = Some group ->
  fs !! "poll.data"%string = None ->
  valid (today env) ->
  toordinal (today env) + (MONDAY - weekday (today env)) <= MAXORDINAL ->
  telegram.send_poll (service env) token group
    ("Abfrage " +:+ isoformat (target_monday env)) ["Ja"; "Nein"]%string false = Ok m ->
  exists w, run_script env fs = (w, Ok tt)
    /\ files w = <["poll.data"%string := Pickle (VData
         (PersistentData_init (Some (telegram.message_id m))
            (Some (telegram.id (telegram.poll m))) (Some (target_monday env))))]> fs
    /\ calls w = [telegram.SendPoll token group
                    ("Abfrage " +:+ isoformat (target_monday env))
                    ["Ja"; "Nein"]%string false]
    /\ stdout w = []
    /\ weekday (target_monday env) = 0
    /\ toordinal (today env) < toordinal (target_monday env) <= toordinal (today env) + 7.
Proof.
  intros Ht Hg Hfile Hv Hmax Hsend.
  destruct (run_script_create env fs token group PersistentData_empty)
    as (w & r & E & Hc & Ho & Hrest);
    [done|done|by rewrite Hfile|by unfold initial_value; rewrite Hfile|done
    |by apply target_monday_in_range|].
  change (question env) with ("Abfrage " +:+ isoformat (target_monday env)) in Hrest.
  change default_options with ["Ja"; "Nein"]%string in Hrest.
  rewrite Hsend in Hrest. destruct Hrest as (-> & Hf).
  exists w. split; [exact E|]. split.
  { rewrite Hf. unfold initial_files. rewrite Hfile. by rewrite insert_insert_eq. }
  split; [exact Hc|]. split; [exact Ho|]. by apply target_monday_facts.
Qed.

Lemma first_run_creates_poll_witness :
  let env := sample_env (sample_service []) (ymd 2024 1 8) in
  exists w, run_script env ∅ = (w, Ok tt)
    /\ files w = {[ "poll.data"%string := Pickle (VData
         (PersistentData_init (Some 42) (Some "poll-1"%string) (Some (ymd 2024 1 15)))) ]}
    /\ calls w = [telegram.SendPoll "token" "group" "Abfrage 2024-01-15"
                    ["Ja"; "Nein"]%string false].
Proof.
  intros env.
  destruct (first_run_creates_poll env ∅ "token" "group" sample_message)
    as (w & E & Hf & Hc & _);
    [reflexivity|reflexivity|done|by vm_compute|by vm_compute|reflexivity|].
  exists w. split; [exact E|]. split.
  - rewrite Hf. by vm_compute.
  - rewrite Hc. by vm_compute.
Defined.





(* ===================================================================== *)
(** ** Further properties: date utility                                  *)
(* ===================================================================== *)

(** X20: [get_next_date(FRIDAY, d)] raises for no date: it returns the
    Friday of the Monday-to-Sunday week of [d], between two days before
    and four days after [d], and before [d] exactly on a Saturday or a
    Sunday. An omitted date stands for today. *)
Theorem friday_of_the_week (arg : option date) (env : Env) (σ : World) :
  let d := default (today env) arg in
  valid d ->
  exists r, get_next_date FRIDAY arg env σ = (σ, Ok r)
    /\ valid r /\ weekday r = 4
    /\ toordinal d - 2 <= toordinal r <= toordinal d + 4
    /\ (toordinal r < toordinal d <-> 5 <= weekday d).
Proof.
  intros d Hv. pose proof (weekday_range d) as Hw.
  pose proof (friday_in_range d Hv) as Hr.
  exists (fromordinal (toordinal d + (FRIDAY - weekday d))).
  split; [by apply run_get_next_friday|].
  split; [exact Hr|]. split; [by rewrite weekday_of_next|].
  cbn. unfold FRIDAY. lia.
Qed.

Lemma friday_of_the_week_witness :
  let env := sample_env (sample_service []) (ymd 2024 1 7) in
  exists r, get_next_date FRIDAY None env (fresh_process ∅) = (fresh_process ∅, Ok r)
    /\ weekday r = 4
    /\ toordinal (ymd 2024 1 7) - 2 <= toordinal r <= toordinal (ymd 2024 1 7) + 4.
Proof.
  intros env.
  destruct (friday_of_the_week None env (fresh_process ∅)) as (r & E & _ & Hw & Hr & _);
    [by vm_compute|].
  by exists r.
Defined.

(** X21: [get_next_date(MONDAY, d)] raises [OverflowError] exactly for the
    dates from 9999-12-27 on, whose next Monday is past [date.max]; for
    every earlier date it returns the date [7 - d.weekday()] days later. *)
Theorem next_monday_overflow (d : date) (env : Env) (σ : World) :
  valid d ->
  get_next_date MONDAY (Some d) env σ
  = (σ, if bool_decide (toordinal (ymd 9999 12 27) <= toordinal d)
        then Raise OverflowError
        else Ok (fromordinal (toordinal d + (7 - weekday d)))).
Proof.
  intros Hv. rewrite run_get_next_date. cbn [default].
  change (toordinal (ymd 9999 12 27)) with 3652055.
  pose proof (weekday_range d) as Hw.
  case_bool_decide as Hlate.
  - rewrite add_days_None; [done|]. weekday_arith.
  - rewrite add_days_Some; [done|]. weekday_arith.
Qed.

Lemma next_monday_overflow_witness :
  let env := sample_env (sample_service []) (ymd 2024 1 3) in
  get_next_date MONDAY (Some (ymd 9999 12 27)) env (fresh_process ∅)
  = (fresh_process ∅, Raise OverflowError)
  /\ get_next_date MONDAY (Some (ymd 9999 12 26)) env (fresh_process ∅)
     = (fresh_process ∅, Ok (ymd 9999 12 27)).
Proof.
  intros env. split.
  - rewrite (next_monday_overflow (ymd 9999 12 27)) by (by vm_compute). reflexivity.
  - rewrite (next_monday_overflow (ymd 9999 12 26)) by (by vm_compute). reflexivity.
Defined.

(** X22: for a weekday number in 0..6, [get_next_date] applied to its own
    result returns that result again. *)
Theorem get_next_date_idempotent (w : Z) (d r : date) (env : Env) (σ : World) :
  0 <= w <= 6 ->
  get_next_date w (Some d) env σ = (σ, Ok r) ->
  get_next_date w (Some r) env σ = (σ, Ok r).
Proof.
  intros Hw H. rewrite run_get_next_date in H. cbn [default from_option id] in H.
  unfold add_days in H. case_bool_decide as Hr; [|done].
  injection H as <-. rewrite run_get_next_date. cbn [default from_option id].
  rewrite weekday_of_next, Z.mod_small by lia.
  rewrite add_days_Some by (cbn; lia). cbn. do 3 f_equal. lia.
Qed.

Lemma get_next_date_idempotent_witness :
  let env := sample_env (sample_service []) (ymd 2024 1 3) in
  get_next_date FRIDAY (Some (ymd 2024 1 5)) env (fresh_process ∅)
  = (fresh_process ∅, Ok (ymd 2024 1 5)).
Proof.
  intros env.
  apply (get_next_date_idempotent FRIDAY (ymd 2024 1 6)); [by vm_compute|reflexivity].
Defined.

(* ===================================================================== *)
(** ** Further properties: memory and disk                               *)
(* ===================================================================== *)

(** X23: a controller step is all or nothing. When it ends normally,
    poll.data holds exactly the state [self.data] holds; when it raises,
    no file and no object has changed. *)
Theorem step_is_all_or_nothing (self g : nat) (b bg : BadmintonBot)
    (d : PersistentData) (env : Env) (w w' : World) (r : result unit) :
  heap w !! self = Some b -> data b = VData d ->
  global_bot w = Some g -> heap w !! g = Some bg ->
  manage_badminton_poll self env w = (w', r) ->
  match r with
  | Ok _ =>
      exists b', heap w' !! self = Some b'
        /\ files w' !! "poll.data"%string = Some (Pickle (data b'))
  | Raise _ => files w' = files w /\ heap w' = heap w
  end.
Proof.
  intros Hs Hd Hg Hbg Hrun.
  destruct (polling_date d) as [pd|] eqn:Hp.
  - destruct (decide (MINORDINAL <= toordinal pd + (FRIDAY - weekday pd) <= MAXORDINAL))
      as [Hr|Hr].
    + destruct (decide (today env = trigger_date pd)) as [Ht|Ht].
      * destruct (run_manage_evaluate self b d pd env w) as (w1 & r1 & E & Hrest);
          [done..|].
        rewrite Hrun in E. injection E as <- <-.
        destruct (telegram.stop_poll _ _ _ _) as [[]|e].
        -- destruct Hrest as (_ & _ & Hrest).
           destruct (evaluation env b (poll_id d)).2 as [[]|e].
           ++ destruct Hrest as (-> & Hf & Hh). eexists. split.
              ** rewrite Hh. apply lookup_insert_eq.
              ** rewrite Hf. apply lookup_insert_eq.
           ++ by destruct Hrest as (-> & Hu).
        -- by destruct Hrest as (-> & Hu & _).
      * destruct (run_manage_noop self b d pd env w) as (w1 & E & _ & _ & Hh & Hf);
          [done..|].
        rewrite Hrun in E. injection E as -> ->. exists b. split.
        -- by rewrite Hh.
        -- by rewrite Hf, lookup_insert_eq, Hd.
    + rewrite (run_manage_overflow self b d pd) in Hrun by done.
      by injection Hrun as <- <-.
  - destruct (decide (MINORDINAL <= toordinal (today env)
                        + (MONDAY - weekday (today env)) <= MAXORDINAL)) as [Hr|Hr].
    + destruct (run_manage_create self b d g bg env w) as (w1 & r1 & E & _ & _ & Hrest);
        [done..|].
      rewrite Hrun in E. injection E as <- <-.
      destruct (telegram.send_poll _ _ _ _ _ _) as [m|e];
        [|destruct (bool_decide (e = SocketTimeout))].
      * destruct Hrest as (-> & Hf & Hh). eexists. split.
        -- rewrite Hh. apply lookup_insert_eq.
        -- rewrite Hf. apply lookup_insert_eq.
      * destruct Hrest as (-> & Hf & Hh). eexists. split.
        -- rewrite Hh. apply lookup_insert_eq.
        -- rewrite Hf. apply lookup_insert_eq.
      * by destruct Hrest as (-> & Hu).
    + rewrite (run_manage_create_overflow self b d) in Hrun by done.
      by injection Hrun as <- <-.
Qed.

Lemma step_is_all_or_nothing_witness :
  let env := sample_env (sample_service []) (ymd 2024 1 3) in
  let w := sample_world ∅ (VData PersistentData_empty) in
  let w' := (manage_badminton_poll 0 env w).1 in
  (manage_badminton_poll 0 env w).2 = Ok tt
  /\ exists b', heap w' !! 0%nat = Some b'
       /\ files w' !! "poll.data"%string = Some (Pickle (data b')).
Proof.
  intros env w w'.
  assert (E : (manage_badminton_poll 0 env w).2 = Ok tt) by (by vm_compute).
  split; [exact E|].
  pose proof (step_is_all_or_nothing 0 0 (sample_bot (VData PersistentData_empty))
                (sample_bot (VData PersistentData_empty)) PersistentData_empty
                env w w' (Ok tt)) as H.
  apply H; [by vm_compute|reflexivity|reflexivity|by vm_compute|].
  rewrite <- E. apply surjective_pairing.
Defined.
